(** * MedXpert backend: the report-processing pipeline

    A shallow embedding of the Python sources

      - [utils/pdf_utils.py]          ([extract_text_from_pdf])
      - [utils/ocr_utils.py]          ([extract_text_from_image])
      - [api/abnormality_checker.py]  ([extract_medical_values],
                                       [detect_abnormalities_llm])
      - [api/report_processor.py]     ([extract_text],
                                       [process_medical_report],
                                       [get_latest_report])
      - [api/chatbot.py]              ([chat_with_ai])

    Python strings are modelled as [string] over the ASCII alphabet: the
    character classes of [re] and [str.strip] are the ASCII parts of their
    Unicode definitions.  The libraries the code calls (pdfplumber,
    pytesseract, LangChain, the OpenAI model, [json.loads]) are the fields
    of a [Backend] record; every theorem quantifies over all backends. *)

From Stdlib Require Import String Ascii List Bool Arith Lia ZArith NArith.
From Stdlib Require Import DecimalString.
Import ListNotations.

Local Open Scope list_scope.
Local Open Scope string_scope.

(* ================================================================= *)
(** ** Python strings *)

Module PyStr.

Definition LF : ascii := ascii_of_nat 10.
Definition DQ : ascii := ascii_of_nat 34.
Definition BSL : ascii := ascii_of_nat 92.

Definition code (c : ascii) : nat := nat_of_ascii c.

Definition in_range (lo hi : nat) (c : ascii) : bool :=
  ((lo <=? code c) && (code c <=? hi))%nat.

(** [\d]: the decimal digits. *)
Definition is_digit (c : ascii) : bool := in_range 48 57 c.

(** [\w]: letters, digits and the underscore. *)
Definition is_word (c : ascii) : bool :=
  in_range 97 122 c || in_range 65 90 c || is_digit c || (code c =? 95)%nat.

(** [\s] and the characters [str.strip()] removes: TAB, LF, VT, FF, CR,
    the separators FS, GS, RS, US and the space. *)
Definition is_space (c : ascii) : bool :=
  in_range 9 13 c || in_range 28 31 c || (code c =? 32)%nat.

Definition one_of (cs : string) (c : ascii) : bool :=
  existsb (Ascii.eqb c) (list_ascii_of_string cs).

Fixpoint lstrip (s : string) : string :=
  match s with
  | String c s' => if is_space c then lstrip s' else s
  | EmptyString => EmptyString
  end.

Fixpoint rstrip (s : string) : string :=
  match s with
  | String c s' =>
      match rstrip s' with
      | EmptyString => if is_space c then EmptyString else String c EmptyString
      | r => String c r
      end
  | EmptyString => EmptyString
  end.

(** [s.strip()] *)
Definition strip (s : string) : string := rstrip (lstrip s).

Definition lower_char (c : ascii) : ascii :=
  if in_range 65 90 c then ascii_of_nat (code c + 32) else c.

(** [s.lower()] *)
Fixpoint lower (s : string) : string :=
  match s with
  | String c s' => String (lower_char c) (lower s')
  | EmptyString => EmptyString
  end.

(** [s.split(".")[-1]]: what follows the last dot, the whole string when
    there is none. *)
Fixpoint last_segment (s : string) : string :=
  match s with
  | String c s' =>
      if existsb (Ascii.eqb ".") (list_ascii_of_string s')
      then last_segment s'
      else if Ascii.eqb c "." then s' else s
  | EmptyString => EmptyString
  end.

(** [s[:len(s) - len(rest)]]: the part of [s] in front of its suffix
    [rest]. *)
Definition consumed (s rest : string) : string :=
  substring 0 (String.length s - String.length rest) s.

(** [not s] *)
Definition is_empty (s : string) : bool :=
  match s with EmptyString => true | _ => false end.

End PyStr.

(* ================================================================= *)
(** ** The [re] engine: backtracking matching, leftmost and greedy *)

Module Re.
Import PyStr.

(** The constructs the pattern of [extract_medical_values] uses.  A
    repetition is always that of a character class. *)
Inductive regex : Type :=
| Eps
| Lit (c : ascii)
| Star (p : ascii -> bool)
| Plus (p : ascii -> bool)
| Opt (r : regex)
| Seq (r1 r2 : regex)
| Alt (r1 r2 : regex)
| Group (n : nat) (r : regex).

(** The characters of [w] one after the other. *)
Fixpoint lit (w : string) : regex :=
  match w with
  | String c w' => Seq (Lit c) (lit w')
  | EmptyString => Eps
  end.

(** Captured groups: number and text, the latest binding first. *)
Definition caps : Type := list (nat * string).

Fixpoint group (n : nat) (cs : caps) : option string :=
  match cs with
  | (m, w) :: cs' => if Nat.eqb m n then Some w else group n cs'
  | [] => None
  end.

(** A continuation receives what is left of the subject and the groups
    captured so far, and answers with the end of the whole match. *)
Definition cont : Type := string -> caps -> option (string * caps).

(** Greedy repetition of a class: the longest run first, giving back one
    character at a time while the continuation fails. *)
Fixpoint star (p : ascii -> bool) (s : string) (k : string -> option (string * caps))
  : option (string * caps) :=
  match s with
  | String c s' =>
      if p c then
        match star p s' k with
        | Some r => Some r
        | None => k s
        end
      else k s
  | EmptyString => k s
  end.

Fixpoint rmatch (r : regex) (s : string) (cs : caps) (k : cont)
  : option (string * caps) :=
  match r with
  | Eps => k s cs
  | Lit c =>
      match s with
      | String c' s' => if Ascii.eqb c' c then k s' cs else None
      | EmptyString => None
      end
  | Star p => star p s (fun s' => k s' cs)
  | Plus p =>
      match s with
      | String c' s' => if p c' then star p s' (fun s'' => k s'' cs) else None
      | EmptyString => None
      end
  | Opt r1 =>
      match rmatch r1 s cs k with
      | Some res => Some res
      | None => k s cs
      end
  | Seq r1 r2 => rmatch r1 s cs (fun s' cs' => rmatch r2 s' cs' k)
  | Alt r1 r2 =>
      match rmatch r1 s cs k with
      | Some res => Some res
      | None => rmatch r2 s cs k
      end
  | Group n r1 =>
      rmatch r1 s cs (fun s' cs' => k s' ((n, consumed s s') :: cs'))
  end.

(** [pattern.match(s)] at the front of [s]: the rest after the match and
    its groups. *)
Definition match_here (r : regex) (s : string) : option (string * caps) :=
  rmatch r s [] (fun s' cs => Some (s', cs)).

(** [re.findall] as a scan of the positions from left to right; [skip]
    counts the positions still covered by the previous match.  After an
    empty match the scan moves on by one character. *)
Fixpoint scan (r : regex) (s : string) (skip : nat) : list caps :=
  match skip with
  | S n =>
      match s with
      | String _ s' => scan r s' n
      | EmptyString => []
      end
  | O =>
      match match_here r s with
      | Some (rest, cs) =>
          cs :: match s with
                | String _ s' =>
                    scan r s' (String.length s - String.length rest - 1)
                | EmptyString => []
                end
      | None =>
          match s with
          | String _ s' => scan r s' 0
          | EmptyString => []
          end
      end
  end.

(** A group that took no part in the match reads as the empty string. *)
Definition group_text (n : nat) (cs : caps) : string :=
  match group n cs with Some w => w | None => EmptyString end.

(** [re.findall] for a pattern with three groups: a list of triples. *)
Definition findall3 (r : regex) (s : string) : list (string * string * string) :=
  map (fun cs => (group_text 1 cs, group_text 2 cs, group_text 3 cs))
      (scan r s 0).

End Re.

(* ================================================================= *)
(** ** Python dictionaries *)

Module Dict.

(** A [dict] with string keys, in insertion order. *)
Definition dict (V : Type) : Type := list (string * V).

Fixpoint get {V} (k : string) (d : dict V) : option V :=
  match d with
  | (k', v) :: d' => if String.eqb k' k then Some v else get k d'
  | [] => None
  end.

(** [d[k] = v]: a key already there keeps its place and gets the new
    value, a new key goes to the end. *)
Fixpoint set {V} (k : string) (v : V) (d : dict V) : dict V :=
  match d with
  | (k', v') :: d' =>
      if String.eqb k' k then (k', v) :: d' else (k', v') :: set k v d'
  | [] => [(k, v)]
  end.

Definition keys {V} (d : dict V) : list string := map fst d.

(** [not d] *)
Definition is_empty {V} (d : dict V) : bool :=
  match d with [] => true | _ => false end.

End Dict.

(* ================================================================= *)
(** ** [api/abnormality_checker.py]: the value extractor *)

Import PyStr.

(** [[\w\s()%-]] *)
Definition label_char (c : ascii) : bool :=
  is_word c || is_space c || one_of "()%-" c.

(** [[\s:-]] *)
Definition separator_char (c : ascii) : bool :=
  is_space c || one_of ":-" c.

(** [[\d.]] *)
Definition number_char (c : ascii) : bool :=
  is_digit c || one_of "." c.

(** [g/dL|mg/dL|%|x10\^?\d*/?L?] *)
Definition unit_regex : Re.regex :=
  Re.Alt (Re.lit "g/dL")
  (Re.Alt (Re.lit "mg/dL")
  (Re.Alt (Re.Lit "%")
          (Re.Seq (Re.lit "x10")
          (Re.Seq (Re.Opt (Re.Lit "^"))
          (Re.Seq (Re.Star is_digit)
          (Re.Seq (Re.Opt (Re.Lit "/")) (Re.Opt (Re.Lit "L")))))))).

(** [([\w\s()%-]+)[\s:-]+([\d.]+)\s*(g/dL|mg/dL|%|x10\^?\d*/?L?)?] *)
Definition medical_pattern : Re.regex :=
  Re.Seq (Re.Group 1 (Re.Plus label_char))
  (Re.Seq (Re.Plus separator_char)
  (Re.Seq (Re.Group 2 (Re.Plus number_char))
  (Re.Seq (Re.Star is_space)
          (Re.Opt (Re.Group 3 unit_regex))))).

(** The loop body: [parameter.strip()] is the key ... *)
Definition match_label (m : string * string * string) : string :=
  let '(parameter, _, _) := m in strip parameter.

(** ... and [f"{value} {unit}".strip()] is what is stored under it. *)
Definition match_value (m : string * string * string) : string :=
  let '(_, value, unit) := m in
  let value := strip value in
  let unit := if is_empty unit then EmptyString else strip unit in
  strip (value ++ " " ++ unit).

Definition store_match (extracted_values : Dict.dict string)
    (m : string * string * string) : Dict.dict string :=
  Dict.set (match_label m) (match_value m) extracted_values.

Definition extract_medical_values (text : string) : Dict.dict string :=
  let matches := Re.findall3 medical_pattern text in
  fold_left store_match matches [].

(* ================================================================= *)
(** ** Python values, exceptions and the state of the process *)

(** The values the endpoints return and [json.loads] builds.  A float
    keeps the decimal text it was read from. *)
#[warnings="-register-all"] Inductive pyval : Type :=
| PyNone
| PyBool (b : bool)
| PyInt (z : Z)
| PyFloat (lexeme : string)
| PyStr (s : string)
| PyList (l : list pyval)
| PyDict (d : list (string * pyval)).

(** [bool(v)] *)
Definition truthy (v : pyval) : bool :=
  match v with
  | PyNone => false
  | PyBool b => b
  | PyInt z => negb (Z.eqb z 0)
  | PyFloat _ => true
  | PyStr s => negb (is_empty s)
  | PyList l => match l with [] => false | _ => true end
  | PyDict d => negb (Dict.is_empty d)
  end.

(** The keys of a value that is a [dict]; no other value has keys. *)
Definition keys_of (v : pyval) : option (list string) :=
  match v with
  | PyDict d => Some (Dict.keys d)
  | _ => None
  end.

(** A call returns a value or raises; an exception [e] is kept as its
    message [str(e)]. *)
Inductive result (A : Type) : Type :=
| Ok (a : A)
| Raise (e : string).
Arguments Ok {A} a.
Arguments Raise {A} e.

(** The requests sent to the language model. *)
Inductive llm_call : Type :=
| SummarizeChain (docs : list string)
| Invoke (prompt : string).

(** The module-level state: the global [latest_report] of
    [report_processor.py] and the requests made to the model so far. *)
Record World : Type := mkWorld {
  latest_report : pyval;
  llm_calls : list llm_call
}.

(** The libraries behind the code. *)
Record Backend : Type := mkBackend {
  (** [pdfplumber.open(stream).pages] with [page.extract_text()] of every
      page, [None] standing for Python's [None]; [Raise] when pdfplumber
      raises. *)
  pdf_pages : string -> result (list (option string));
  (** [pytesseract.image_to_string(Image.open(stream))] *)
  image_to_string : string -> result string;
  (** [RecursiveCharacterTextSplitter(1000, 200).split_text] *)
  split_text : string -> list string;
  (** [load_summarize_chain(llm, chain_type="map_reduce").run(docs)] *)
  summary_chain_run : list string -> result string;
  (** [llm.invoke(prompt).content] *)
  llm_invoke : string -> result string;
  (** [json.loads] *)
  json_loads : string -> result pyval;
  (** [str(v)], as an f-string formats a value *)
  format_value : pyval -> string
}.

(** Computations that read and write the [World] and may raise. *)
Module Eff.

Definition M (A : Type) : Type := World -> result A * World.

Definition ret {A} (a : A) : M A := fun w => (Ok a, w).

Definition bind {A B} (m : M A) (f : A -> M B) : M B :=
  fun w =>
    match m w with
    | (Ok a, w') => f a w'
    | (Raise e, w') => (Raise e, w')
    end.

(** A call of a library that is not the model. *)
Definition lift {A} (r : result A) : M A := fun w => (r, w).

(** A request to the model: it is recorded, then it returns or raises. *)
Definition request {A} (c : llm_call) (r : result A) : M A :=
  fun w => (r, mkWorld (latest_report w) (llm_calls w ++ [c])%list).

Definition read_report : M pyval := fun w => (Ok (latest_report w), w).

Definition write_report (v : pyval) : M unit :=
  fun w => (Ok tt, mkWorld v (llm_calls w)).

(** [try: x = body / except Exception as e: return handler(e)], followed
    by [rest(x)], whose exceptions are not caught. *)
Definition try_except {A B} (body : M A) (handler : string -> M B)
    (rest : A -> M B) : M B :=
  fun w =>
    match body w with
    | (Ok a, w') => rest a w'
    | (Raise e, w') => handler e w'
    end.

End Eff.

Declare Scope eff_scope.
Delimit Scope eff_scope with eff.
Notation "x <- m ;; k" := (Eff.bind m (fun x => k))
  (at level 61, m at next level, right associativity) : eff_scope.
Notation "m ;;; k" := (Eff.bind m (fun _ => k))
  (at level 61, right associativity) : eff_scope.

(* ================================================================= *)
(** ** [utils/pdf_utils.py] and [utils/ocr_utils.py] *)

(** [text += page.extract_text() + "\n"]: adding a string to [None] is a
    [TypeError]. *)
Definition add_page (text : string) (page : option string) : result string :=
  match page with
  | Some t => Ok (text ++ t ++ String LF EmptyString)
  | None => Raise "unsupported operand type(s) for +: 'NoneType' and 'str'"
  end.

(** The loop over [pdf.pages]. *)
Fixpoint add_pages (text : string) (pages : list (option string)) : result string :=
  match pages with
  | page :: rest =>
      match add_page text page with
      | Ok text' => add_pages text' rest
      | Raise e => Raise e
      end
  | [] => Ok text
  end.

Definition extract_text_from_pdf (B : Backend) (pdf_bytes : string) : result string :=
  match pdf_pages B pdf_bytes with
  | Ok pages =>
      match add_pages EmptyString pages with
      | Ok text => Ok (strip text)
      | Raise e => Raise e
      end
  | Raise e => Raise e
  end.

(** Every exception of the OCR is caught (and printed); the function then
    returns [None]. *)
Definition extract_text_from_image (B : Backend) (image_bytes : string) : option string :=
  match image_to_string B image_bytes with
  | Ok text => Some (strip text)
  | Raise _ => None
  end.

(* ================================================================= *)
(** ** [json.dumps] of the parameter map and the two prompts *)

Definition hex_digit (n : nat) : ascii :=
  if (n <? 10)%nat then ascii_of_nat (48 + n) else ascii_of_nat (87 + n).

(** One character inside a JSON string ([ensure_ascii] is on). *)
Definition json_escape_char (c : ascii) : string :=
  let n := code c in
  if (n =? 34)%nat then String BSL (String DQ EmptyString)
  else if (n =? 92)%nat then String BSL (String BSL EmptyString)
  else if (n =? 10)%nat then String BSL "n"
  else if (n =? 13)%nat then String BSL "r"
  else if (n =? 9)%nat then String BSL "t"
  else if (n =? 8)%nat then String BSL "b"
  else if (n =? 12)%nat then String BSL "f"
  else if in_range 32 126 c then String c EmptyString
  else String BSL ("u00" ++ String (hex_digit (n / 16))
                              (String (hex_digit (n mod 16)) EmptyString)).

Fixpoint json_escape (s : string) : string :=
  match s with
  | String c s' => json_escape_char c ++ json_escape s'
  | EmptyString => EmptyString
  end.

(** A string between double quotes. *)
Definition quoted (s : string) : string :=
  String DQ (s ++ String DQ EmptyString).

Definition json_string (s : string) : string := quoted (json_escape s).

(** The lines of a text, each but the last followed by a line feed. *)
Fixpoint join_lines (ls : list string) : string :=
  match ls with
  | [] => EmptyString
  | [l] => l
  | l :: rest => l ++ String LF (join_lines rest)
  end.

(** [", ".join]-like joining of the members, one per line. *)
Fixpoint json_members (d : Dict.dict string) : string :=
  match d with
  | [] => EmptyString
  | [(k, v)] => "  " ++ json_string k ++ ": " ++ json_string v
  | (k, v) :: rest =>
      "  " ++ json_string k ++ ": " ++ json_string v ++ ","
           ++ String LF (json_members rest)
  end.

(** [json.dumps(extracted_values, indent=2)] *)
Definition json_dumps_indent2 (d : Dict.dict string) : string :=
  match d with
  | [] => "{}"
  | _ => "{" ++ String LF (json_members d) ++ String LF "}"
  end.

(** The f-string of [detect_abnormalities_llm]. *)
Definition analysis_prompt (extracted_values : Dict.dict string) : string :=
  join_lines
    [ EmptyString;
      "    The following are medical test results extracted from a patient's report:";
      EmptyString;
      "    " ++ json_dumps_indent2 extracted_values;
      EmptyString;
      "    Based on your medical knowledge, analyze these values and:";
      "    - Identify any abnormal values.";
      "    - Explain why they might be concerning.";
      "    - Suggest possible medical conditions related to abnormalities.";
      "    - Provide recommendations for further medical consultation.";
      EmptyString;
      "    Respond in valid JSON format without additional text:";
      "    {";
      "      " ++ quoted "abnormalities" ++ ": [";
      "        {";
      "          " ++ quoted "parameter" ++ ": " ++ quoted "<Test Name>" ++ ",";
      "          " ++ quoted "value" ++ ": " ++ quoted "<Test Value>" ++ ",";
      "          " ++ quoted "explanation" ++ ": "
                   ++ quoted "<Reason why it's abnormal>" ++ ",";
      "          " ++ quoted "possible_conditions" ++ ": ["
                   ++ quoted "Condition 1" ++ ", " ++ quoted "Condition 2" ++ "],";
      "          " ++ quoted "recommendations" ++ ": "
                   ++ quoted "Suggested medical advice";
      "        }";
      "      ]";
      "    }";
      "    " ].

(** The f-string of [chat_with_ai]. *)
Definition chat_context (summary abnormalities question : string) : string :=
  join_lines
    [ EmptyString;
      "    User's latest medical report summary:";
      "    " ++ summary;
      EmptyString;
      "    Detected abnormalities:";
      "    " ++ abnormalities;
      EmptyString;
      "    User's question: " ++ question;
      "    " ].

(* ================================================================= *)
(** ** [api/abnormality_checker.py]: the analyzer *)

Section Pipeline.

Variable B : Backend.

Local Open Scope eff_scope.

Definition no_values_message : pyval :=
  PyDict [("message", PyStr "No medical values found for analysis.")].

Definition analysis_error (e : string) : pyval :=
  PyDict [("error", PyStr ("LLM analysis failed: " ++ e))].

Definition detect_abnormalities_llm (text : string) : Eff.M pyval :=
  let extracted_values := extract_medical_values text in
  if Dict.is_empty extracted_values then Eff.ret no_values_message
  else
    let prompt := analysis_prompt extracted_values in
    Eff.try_except
      (response <- Eff.request (Invoke prompt) (llm_invoke B prompt) ;;
       parsed_response <- Eff.lift (json_loads B response) ;;
       Eff.ret parsed_response)
      (fun e => Eff.ret (analysis_error e))
      (fun parsed_response => Eff.ret parsed_response).

(* ================================================================= *)
(** ** [api/report_processor.py] *)

(** An uploaded file: its name and what [await file.read()] gives. *)
Record UploadFile : Type := mkUploadFile {
  filename : string;
  contents : string
}.

Definition extract_text (file file_extension : string) : result (option string) :=
  if String.eqb file_extension "pdf" then
    match extract_text_from_pdf B file with
    | Ok text => Ok (Some text)
    | Raise e => Raise e
    end
  else if existsb (String.eqb file_extension) ["png"; "jpg"; "jpeg"] then
    Ok (extract_text_from_image B file)
  else Ok None.

(** [not extracted_text], for [None] or a string. *)
Definition no_text (extracted_text : option string) : bool :=
  match extracted_text with
  | None => true
  | Some text => is_empty text
  end.

(** The string behind a value that is not [None]. *)
Definition text_of (extracted_text : option string) : string :=
  match extracted_text with
  | Some text => text
  | None => EmptyString
  end.

Definition no_text_error : pyval :=
  PyDict [("error", PyStr "Unsupported file format or no text found.")].

Definition summarization_error (e : string) : pyval :=
  PyDict [("error", PyStr ("Summarization failed: " ++ e))].

Definition report_of (summary : string) (abnormalities : pyval) : pyval :=
  PyDict [("summary", PyStr summary); ("abnormalities", abnormalities)].

Definition process_medical_report (file : UploadFile) : Eff.M pyval :=
  let file_extension := lower (last_segment (filename file)) in
  extracted_text <- Eff.lift (extract_text (contents file) file_extension) ;;
  if no_text extracted_text then Eff.ret no_text_error
  else
    let extracted_text := text_of extracted_text in
    let text_chunks := split_text B extracted_text in
    let docs := text_chunks in
    Eff.try_except
      (Eff.request (SummarizeChain docs) (summary_chain_run B docs))
      (fun e => Eff.ret (summarization_error e))
      (fun summary =>
         abnormalities <- detect_abnormalities_llm extracted_text ;;
         Eff.write_report (report_of summary abnormalities) ;;;
         Eff.ret (report_of summary abnormalities)).

Definition get_latest_report : Eff.M pyval := Eff.read_report.

(* ================================================================= *)
(** ** [api/chatbot.py] *)

(** [report[key]]; a missing key is a [KeyError].  The store only ever
    holds [None] or a [dict]. *)
Definition subscript (report : pyval) (key : string) : result pyval :=
  match report with
  | PyDict d =>
      match Dict.get key d with
      | Some v => Ok v
      | None => Raise (String "'" (key ++ "'"))
      end
  | _ => Raise "object is not subscriptable"
  end.

Definition no_report_error : pyval :=
  PyDict [("error", PyStr "No medical report found. Please upload one first.")].

Definition chat_with_ai (question : string) : Eff.M pyval :=
  report <- get_latest_report ;;
  if negb (truthy report) then Eff.ret no_report_error
  else
    summary <- Eff.lift (subscript report "summary") ;;
    abnormalities <- Eff.lift (subscript report "abnormalities") ;;
    let context :=
      chat_context (format_value B summary) (format_value B abnormalities)
                   question in
    response <- Eff.request (Invoke context) (llm_invoke B context) ;;
    Eff.ret (PyDict [("response", PyStr response)]).

End Pipeline.

(* ================================================================= *)
(** ** A reference decoder for [json.loads]

    The theorems below hold for every decoder.  To run the code on a
    concrete response, [Json.loads] decodes JSON text the way the standard
    library does: values, the rest of the text and, on failure, the
    message of [JSONDecodeError] with its line, column and index. *)

Module Json.

(** The outcome of a scanning step: a value and the text after it, or a
    message and the length of the text left at the place of the error. *)
Inductive outcome (A : Type) : Type :=
| Done (a : A) (rest : string)
| Fail (msg : string) (remaining : nat).
Arguments Done {A} a rest.
Arguments Fail {A} msg remaining.

Definition is_ws (c : ascii) : bool :=
  let n := code c in
  ((n =? 32) || (n =? 9) || (n =? 10) || (n =? 13))%nat.

Fixpoint skip_ws (s : string) : string :=
  match s with
  | String c s' => if is_ws c then skip_ws s' else s
  | EmptyString => s
  end.

Fixpoint strip_prefix (p s : string) : option string :=
  match p, s with
  | EmptyString, _ => Some s
  | String a p', String b s' => if Ascii.eqb a b then strip_prefix p' s' else None
  | String _ _, EmptyString => None
  end.

(** The longest run of characters of a class, and the rest. *)
Fixpoint span (p : ascii -> bool) (s : string) : string * string :=
  match s with
  | String c s' =>
      if p c then let (run, rest) := span p s' in (String c run, rest)
      else (EmptyString, s)
  | EmptyString => (EmptyString, s)
  end.

Definition digits_to_Z (ds : string) : Z :=
  fold_left (fun acc c => (10 * acc + Z.of_nat (code c - 48))%Z)
            (list_ascii_of_string ds) 0%Z.

(** [(\.\d+)?] *)
Definition fraction (s : string) : string * string :=
  match s with
  | String c s' =>
      if Ascii.eqb c "." then
        let (ds, rest) := span is_digit s' in
        if is_empty ds then (EmptyString, s) else (String c ds, rest)
      else (EmptyString, s)
  | EmptyString => (EmptyString, s)
  end.

(** [([eE][-+]?\d+)?] *)
Definition exponent (s : string) : string * string :=
  match s with
  | String e s' =>
      if one_of "eE" e then
        let (sign, s'') :=
          match s' with
          | String g t => if one_of "-+" g then (String g EmptyString, t)
                          else (EmptyString, s')
          | EmptyString => (EmptyString, s')
          end in
        let (ds, rest) := span is_digit s'' in
        if is_empty ds then (EmptyString, s) else (String e (sign ++ ds), rest)
      else (EmptyString, s)
  | EmptyString => (EmptyString, s)
  end.

(** A JSON number: an optional minus, [0] or digits not starting with
    [0], then the optional fraction and exponent. *)
Definition number (s : string) : option (pyval * string) :=
  let (minus, s1) :=
    match s with
    | String c s' => if Ascii.eqb c "-" then (true, s') else (false, s)
    | EmptyString => (false, s)
    end in
  match s1 with
  | String c s2 =>
      if is_digit c then
        let (int_digits, s3) :=
          if Ascii.eqb c "0" then (String c EmptyString, s2)
          else let (ds, rest) := span is_digit s2 in (String c ds, rest) in
        let (frac, s4) := fraction s3 in
        let (exp, s5) := exponent s4 in
        if is_empty frac && is_empty exp then
          let z := digits_to_Z int_digits in
          Some (PyInt (if minus then (- z)%Z else z), s5)
        else
          Some (PyFloat ((if minus then "-" else EmptyString)
                           ++ int_digits ++ frac ++ exp), s5)
      else None
  | EmptyString => None
  end.

Definition hex_value (c : ascii) : option N :=
  let n := N_of_ascii c in
  if is_digit c then Some (n - 48)%N
  else if in_range 97 102 c then Some (n - 87)%N
  else if in_range 65 70 c then Some (n - 55)%N
  else None.

(** The four hexadecimal digits after [\u]. *)
Definition hex4 (s : string) : option (N * string) :=
  match s with
  | String a (String b (String c (String d rest))) =>
      match hex_value a, hex_value b, hex_value c, hex_value d with
      | Some x, Some y, Some z, Some t =>
          Some (((x * 16 + y) * 16 + z) * 16 + t, rest)%N
      | _, _, _, _ => None
      end
  | _ => None
  end.

Definition byte (n : N) : string := String (ascii_of_N n) EmptyString.

(** A code point as text (UTF-8). *)
Definition chr (u : N) : string :=
  if (u <? 128)%N then byte u
  else if (u <? 2048)%N then byte (192 + u / 64) ++ byte (128 + u mod 64)
  else if (u <? 65536)%N then
    byte (224 + u / 4096) ++ byte (128 + (u / 64) mod 64) ++ byte (128 + u mod 64)
  else
    byte (240 + u / 262144) ++ byte (128 + (u / 4096) mod 64)
      ++ byte (128 + (u / 64) mod 64) ++ byte (128 + u mod 64).

Definition simple_escape (e : ascii) : option ascii :=
  if Ascii.eqb e DQ then Some DQ
  else if Ascii.eqb e BSL then Some BSL
  else if Ascii.eqb e "/" then Some "/"%char
  else if Ascii.eqb e "b" then Some (ascii_of_nat 8)
  else if Ascii.eqb e "f" then Some (ascii_of_nat 12)
  else if Ascii.eqb e "n" then Some LF
  else if Ascii.eqb e "r" then Some (ascii_of_nat 13)
  else if Ascii.eqb e "t" then Some (ascii_of_nat 9)
  else None.

Definition prepend (w : string) (o : outcome string) : outcome string :=
  match o with
  | Done a rest => Done (w ++ a) rest
  | Fail msg remaining => Fail msg remaining
  end.

(** [\uXXXX], with a low surrogate after a high one joined to it. *)
Definition unicode_escape (s : string) : option (N * string) :=
  match hex4 s with
  | Some (uni, rest) =>
      if ((55296 <=? uni) && (uni <=? 56319))%N then
        match strip_prefix (String BSL "u") rest with
        | Some rest' =>
            match hex4 rest' with
            | Some (uni2, rest'') =>
                if ((56320 <=? uni2) && (uni2 <=? 57343))%N
                then Some (65536 + ((uni - 55296) * 1024 + (uni2 - 56320)), rest'')%N
                else Some (uni, rest)
            | None => Some (uni, rest)
            end
        | None => Some (uni, rest)
        end
      else Some (uni, rest)
  | None => None
  end.

(** The text of a string after its opening quote; [begin] is what was
    left of the document at that quote. *)
Fixpoint scanstring (fuel : nat) (s : string) (begin : nat) : outcome string :=
  match fuel with
  | O => Fail "Unterminated string starting at" begin
  | S fuel' =>
      match s with
      | EmptyString => Fail "Unterminated string starting at" begin
      | String c s' =>
          if Ascii.eqb c DQ then Done EmptyString s'
          else if Ascii.eqb c BSL then
            match s' with
            | EmptyString => Fail "Unterminated string starting at" begin
            | String e s'' =>
                if Ascii.eqb e "u" then
                  match unicode_escape s'' with
                  | Some (uni, rest) => prepend (chr uni) (scanstring fuel' rest begin)
                  | None => Fail "Invalid \uXXXX escape" (String.length s')
                  end
                else
                  match simple_escape e with
                  | Some ch =>
                      prepend (String ch EmptyString) (scanstring fuel' s'' begin)
                  | None => Fail "Invalid \escape" (String.length s)
                  end
            end
          else if (code c <? 32)%nat then
            Fail "Invalid control character at" (String.length s)
          else prepend (String c EmptyString) (scanstring fuel' s' begin)
      end
  end.

Definition out_of_fuel {A} : outcome A :=
  Fail "maximum recursion depth exceeded" 0.

(** [scan_once], [JSONArray] and [JSONObject].  [items] and [members] are
    the loops after the first element has been found to be there; [acc]
    holds what was read, the latest first. *)
Fixpoint scan_once (fuel : nat) (s : string) : outcome pyval :=
  match fuel with
  | O => out_of_fuel
  | S fuel' =>
      match s with
      | EmptyString => Fail "Expecting value" 0
      | String c s' =>
          if Ascii.eqb c DQ then
            match scanstring (String.length s) s' (String.length s) with
            | Done w rest => Done (PyStr w) rest
            | Fail msg remaining => Fail msg remaining
            end
          else if Ascii.eqb c "{" then
            let s1 := skip_ws s' in
            match s1 with
            | String c1 s1' =>
                if Ascii.eqb c1 "}" then Done (PyDict []) s1'
                else if Ascii.eqb c1 DQ then members fuel' s1 []
                else Fail "Expecting property name enclosed in double quotes"
                          (String.length s1)
            | EmptyString =>
                Fail "Expecting property name enclosed in double quotes" 0
            end
          else if Ascii.eqb c "[" then
            let s1 := skip_ws s' in
            match s1 with
            | String c1 s1' =>
                if Ascii.eqb c1 "]" then Done (PyList []) s1'
                else items fuel' s1 []
            | EmptyString => items fuel' s1 []
            end
          else
            match strip_prefix "null" s, strip_prefix "true" s,
                  strip_prefix "false" s with
            | Some rest, _, _ => Done PyNone rest
            | _, Some rest, _ => Done (PyBool true) rest
            | _, _, Some rest => Done (PyBool false) rest
            | None, None, None =>
                match number s with
                | Some (v, rest) => Done v rest
                | None =>
                    match strip_prefix "NaN" s, strip_prefix "Infinity" s,
                          strip_prefix "-Infinity" s with
                    | Some rest, _, _ => Done (PyFloat "NaN") rest
                    | _, Some rest, _ => Done (PyFloat "Infinity") rest
                    | _, _, Some rest => Done (PyFloat "-Infinity") rest
                    | None, None, None => Fail "Expecting value" (String.length s)
                    end
                end
            end
      end
  end

with items (fuel : nat) (s : string) (acc : list pyval) : outcome pyval :=
  match fuel with
  | O => out_of_fuel
  | S fuel' =>
      match scan_once fuel' s with
      | Done v rest =>
          let s1 := skip_ws rest in
          match s1 with
          | String c s1' =>
              if Ascii.eqb c "]" then Done (PyList (rev (v :: acc))) s1'
              else if Ascii.eqb c "," then items fuel' (skip_ws s1') (v :: acc)
              else Fail "Expecting ',' delimiter" (String.length s1)
          | EmptyString => Fail "Expecting ',' delimiter" 0
          end
      | Fail msg remaining => Fail msg remaining
      end
  end

with members (fuel : nat) (s : string) (acc : Dict.dict pyval) : outcome pyval :=
  match fuel with
  | O => out_of_fuel
  | S fuel' =>
      match s with
      | String _ s' =>
          match scanstring (String.length s) s' (String.length s) with
          | Done key rest =>
              let s1 := skip_ws rest in
              match s1 with
              | String c s1' =>
                  if Ascii.eqb c ":" then
                    match scan_once fuel' (skip_ws s1') with
                    | Done v rest' =>
                        let acc' := Dict.set key v acc in
                        let s2 := skip_ws rest' in
                        match s2 with
                        | String c2 s2' =>
                            if Ascii.eqb c2 "}" then Done (PyDict acc') s2'
                            else if Ascii.eqb c2 "," then
                              let s3 := skip_ws s2' in
                              match s3 with
                              | String c3 _ =>
                                  if Ascii.eqb c3 DQ then members fuel' s3 acc'
                                  else Fail "Expecting property name enclosed in double quotes"
                                            (String.length s3)
                              | EmptyString =>
                                  Fail "Expecting property name enclosed in double quotes" 0
                              end
                            else Fail "Expecting ',' delimiter" (String.length s2)
                        | EmptyString => Fail "Expecting ',' delimiter" 0
                        end
                    | Fail msg remaining => Fail msg remaining
                    end
                  else Fail "Expecting ':' delimiter" (String.length s1)
              | EmptyString => Fail "Expecting ':' delimiter" 0
              end
          | Fail msg remaining => Fail msg remaining
          end
      | EmptyString => Fail "Expecting property name enclosed in double quotes" 0
      end
  end.

Definition decimal (n : nat) : string := NilZero.string_of_uint (Nat.to_uint n).

(** [doc.count("\n", 0, pos) + 1] and [pos - doc.rfind("\n", 0, pos)] *)
Fixpoint line_and_column (doc : string) (pos line col : nat) : nat * nat :=
  match pos, doc with
  | S pos', String c doc' =>
      if Ascii.eqb c LF then line_and_column doc' pos' (S line) 1
      else line_and_column doc' pos' line (S col)
  | _, _ => (line, col)
  end.

(** [str(JSONDecodeError(msg, doc, pos))] *)
Definition decode_error (msg doc : string) (pos : nat) : string :=
  let (line, col) := line_and_column doc pos 1 1 in
  msg ++ ": line " ++ decimal line ++ " column " ++ decimal col
      ++ " (char " ++ decimal pos ++ ")".

(** [json.loads(doc)] *)
Definition loads (doc : string) : result pyval :=
  let n := String.length doc in
  match scan_once (2 * n + 2) (skip_ws doc) with
  | Done v rest =>
      match skip_ws rest with
      | EmptyString => Ok v
      | rest' => Raise (decode_error "Extra data" doc (n - String.length rest'))
      end
  | Fail msg remaining => Raise (decode_error msg doc (n - remaining))
  end.

End Json.

(* ================================================================= *)
(** ** Backends and inputs for running the code *)

Module Demo.

(** [repr] of a string: single quotes, unless the string has one and no
    double quote. *)
Definition repr_char (quote c : ascii) : string :=
  let n := code c in
  if Ascii.eqb c BSL then String BSL (String BSL EmptyString)
  else if Ascii.eqb c quote then String BSL (String c EmptyString)
  else if (n =? 10)%nat then String BSL "n"
  else if (n =? 13)%nat then String BSL "r"
  else if (n =? 9)%nat then String BSL "t"
  else if in_range 32 126 c then String c EmptyString
  else String BSL ("x" ++ String (hex_digit (n / 16))
                            (String (hex_digit (n mod 16)) EmptyString)).

Definition repr_str (s : string) : string :=
  let cs := list_ascii_of_string s in
  let quote :=
    if existsb (Ascii.eqb "'") cs && negb (existsb (Ascii.eqb DQ) cs)
    then DQ else "'"%char in
  String quote
    (fold_right (fun c acc => repr_char quote c ++ acc)
                (String quote EmptyString) cs).

Fixpoint join (sep : string) (ws : list string) : string :=
  match ws with
  | [] => EmptyString
  | [w] => w
  | w :: rest => w ++ sep ++ join sep rest
  end.

(** [repr(v)]; a float shows the text it was read from. *)
Fixpoint repr (v : pyval) : string :=
  match v with
  | PyNone => "None"
  | PyBool b => if b then "True" else "False"
  | PyInt z => NilZero.string_of_int (Z.to_int z)
  | PyFloat lexeme => lexeme
  | PyStr s => repr_str s
  | PyList l => "[" ++ join ", " (map repr l) ++ "]"
  | PyDict d =>
      "{" ++ join ", " (map (fun kv => repr_str (fst kv) ++ ": " ++ repr (snd kv)) d)
          ++ "}"
  end.

(** [str(v)] *)
Definition str (v : pyval) : string :=
  match v with
  | PyStr s => s
  | _ => repr v
  end.

(** A backend that answers every call the same way: the pages of every
    PDF, the text of every image, the summary and the model's reply.  The
    splitter leaves short texts in one chunk. *)
Definition backend (pages : result (list (option string)))
    (ocr summary reply : result string) : Backend :=
  mkBackend (fun _ => pages) (fun _ => ocr) (fun text => [text])
            (fun _ => summary) (fun _ => reply) Json.loads str.

Definition connection_error : string := "Connection error.".

(** Nothing works. *)
Definition offline : Backend :=
  backend (Raise "No /Root object! - Is this really a PDF?")
          (Raise "cannot identify image file")
          (Raise connection_error) (Raise connection_error).

(** A one-page report. *)
Definition report_text : string := "Hemoglobin: 9.5 g/dL".

Definition one_page (summary reply : result string) : Backend :=
  backend (Ok [Some report_text]) (Ok report_text) summary reply.

(** A fresh process: no report, no request made. *)
Definition fresh : World := mkWorld PyNone [].

Definition pdf_upload : UploadFile := mkUploadFile "report.pdf" "%PDF-1.7".

End Demo.

(* ================================================================= *)
(** ** Notions the statements use *)

Module ReLang.
Import Re.

(** The words a pattern matches. *)
Fixpoint lang (r : regex) (w : string) : Prop :=
  match r with
  | Eps => w = EmptyString
  | Lit c => w = String c EmptyString
  | Star p => forallb p (list_ascii_of_string w) = true
  | Plus p => w <> EmptyString /\ forallb p (list_ascii_of_string w) = true
  | Opt r1 => w = EmptyString \/ lang r1 w
  | Seq r1 r2 => exists w1 w2, w = w1 ++ w2 /\ lang r1 w1 /\ lang r2 w2
  | Alt r1 r2 => lang r1 w \/ lang r2 w
  | Group _ r1 => lang r1 w
  end.

Fixpoint group_free (r : regex) : Prop :=
  match r with
  | Eps | Lit _ | Star _ | Plus _ => True
  | Opt r1 => group_free r1
  | Seq r1 r2 | Alt r1 r2 => group_free r1 /\ group_free r2
  | Group _ _ => False
  end.

(** The pattern matches the empty word. *)
Fixpoint nullable (r : regex) : bool :=
  match r with
  | Eps | Star _ | Opt _ => true
  | Lit _ | Plus _ => false
  | Seq r1 r2 => nullable r1 && nullable r2
  | Alt r1 r2 => nullable r1 || nullable r2
  | Group _ r1 => nullable r1
  end.

(** The pattern reads no white space. *)
Fixpoint spaceless (r : regex) : Prop :=
  match r with
  | Eps => True
  | Lit c => is_space c = false
  | Star p | Plus p => forall c, p c = true -> is_space c = false
  | Opt r1 | Group _ r1 => spaceless r1
  | Seq r1 r2 | Alt r1 r2 => spaceless r1 /\ spaceless r2
  end.

End ReLang.

(** The value of the last match with a given label. *)
Fixpoint last_value (label : string) (matches : list (string * string * string))
  : option string :=
  match matches with
  | m :: rest =>
      match last_value label rest with
      | Some v => Some v
      | None => if String.eqb (match_label m) label then Some (match_value m) else None
      end
  | [] => None
  end.

(** [<number> <unit>], the unit and its space left out when there is no
    unit. *)
Definition number_and_unit (number unit : string) : string :=
  if is_empty unit then number else number ++ " " ++ unit.

(** The texts of the pages, each followed by a line feed. *)
Fixpoint pages_text (texts : list string) : string :=
  match texts with
  | t :: rest => t ++ String LF (pages_text rest)
  | [] => EmptyString
  end.

(** The only key of a [dict]. *)
Definition only_key (k : string) (v : pyval) : Prop := keys_of v = Some [k].

(** A [dict] with the key [k]. *)
Definition has_key (k : string) (v : pyval) : Prop :=
  exists ks, keys_of v = Some ks /\ In k ks.

(** The three shapes of an analysis result. *)
Definition analysis_shape (v : pyval) : Prop :=
  has_key "abnormalities" v \/ only_key "message" v \/ only_key "error" v.

(** The request to the model fails with [e]: the call raises, or its
    reply is not JSON. *)
Definition analysis_fails (B : Backend) (text e : string) : Prop :=
  let prompt := analysis_prompt (extract_medical_values text) in
  llm_invoke B prompt = Raise e
  \/ exists response,
       llm_invoke B prompt = Ok response /\ json_loads B response = Raise e.

(** The extension [process_medical_report] dispatches on. *)
Definition extension_of (file : UploadFile) : string :=
  lower (last_segment (filename file)).

Definition supported_extension (ext : string) : bool :=
  existsb (String.eqb ext) ["pdf"; "png"; "jpg"; "jpeg"].

(** No character of the string is white space. *)
Definition no_space (s : string) : Prop :=
  forallb (fun c => negb (is_space c)) (list_ascii_of_string s) = true.

(** The world after the analyzer's request has been recorded. *)
Definition after_request (prompt : string) (w : World) : World :=
  mkWorld (latest_report w) (llm_calls w ++ [Invoke prompt])%list.

(** The world after both requests of a run of the pipeline. *)
Definition after_summary (docs : list string) (w : World) : World :=
  mkWorld (latest_report w) (llm_calls w ++ [SummarizeChain docs])%list.

(** [api/main.py]: the upload endpoint hands the file to the pipeline and
    returns what it gives. *)
Definition upload_report (B : Backend) (file : UploadFile) : Eff.M pyval :=
  (report_data <- process_medical_report B file ;; Eff.ret report_data)%eff.

(** Every character of the string is white space. *)
Definition blank (s : string) : bool :=
  forallb is_space (list_ascii_of_string s).

(** The labels in the order of their first occurrence, each once. *)
Fixpoint first_occurrences (labels : list string) : list string :=
  match labels with
  | label :: rest =>
      label :: filter (fun l => negb (String.eqb l label)) (first_occurrences rest)
  | [] => []
  end.

(** Is the label among the keys? *)
Definition known (ks : list string) (l : string) : bool :=
  existsb (fun k => String.eqb k l) ks.

(** A part of the text is a word of the pattern. *)
Definition occurs (r : Re.regex) (text : string) : Prop :=
  exists before w after, text = before ++ w ++ after /\ ReLang.lang r w.

(** The requests the analyzer adds for a text: one when there are values,
    none otherwise. *)
Definition analysis_requests (text : string) : list llm_call :=
  let extracted_values := extract_medical_values text in
  if Dict.is_empty extracted_values then []
  else [Invoke (analysis_prompt extracted_values)].


(* ================================================================= *)
(** * Facts about strings *)

Section Strings.

Lemma append_empty_r (s : string) : s ++ EmptyString = s.
Proof. induction s as [|c s IH]; cbn; [reflexivity | now rewrite IH]. Qed.

Lemma append_associative (a b c : string) : (a ++ b) ++ c = a ++ (b ++ c).
Proof. induction a as [|x a IH]; cbn; [reflexivity | now rewrite IH]. Qed.

Lemma length_append (a b : string) :
  String.length (a ++ b) = String.length a + String.length b.
Proof. induction a as [|x a IH]; cbn; [reflexivity | now rewrite IH]. Qed.

Lemma append_is_empty (a b : string) :
  a ++ b = EmptyString -> a = EmptyString /\ b = EmptyString.
Proof. destruct a; cbn; [auto | discriminate]. Qed.

Lemma chars_of_append (a b : string) :
  list_ascii_of_string (a ++ b)
  = (list_ascii_of_string a ++ list_ascii_of_string b)%list.
Proof. induction a as [|x a IH]; cbn; [reflexivity | now rewrite IH]. Qed.

Lemma substring_prefix (w s : string) :
  substring 0 (String.length w) (w ++ s) = w.
Proof.
  induction w as [|c w IH]; cbn.
  - destruct s; reflexivity.
  - now rewrite IH.
Qed.

(** What a match has consumed is the word in front of the rest. *)
Lemma consumed_prefix (w s : string) : consumed (w ++ s) s = w.
Proof.
  unfold consumed. rewrite length_append.
  replace (String.length w + String.length s - String.length s)
    with (String.length w) by lia.
  apply substring_prefix.
Qed.

Lemma no_space_append (a b : string) :
  no_space a -> no_space b -> no_space (a ++ b).
Proof.
  unfold no_space. intros Ha Hb. rewrite chars_of_append, forallb_app.
  now rewrite Ha, Hb.
Qed.

Lemma rstrip_not_empty (c : ascii) (s : string) :
  rstrip s <> EmptyString -> rstrip (String c s) = String c (rstrip s).
Proof. cbn. destruct (rstrip s); [congruence | reflexivity]. Qed.

Lemma rstrip_no_space (s : string) :
  s <> EmptyString -> no_space s -> rstrip s = s.
Proof.
  unfold no_space. induction s as [|c s IH]; [congruence|].
  intros _ H. cbn in H. apply andb_prop in H as [Hc Hs].
  destruct s as [|d s].
  - cbn. apply negb_true_iff in Hc. now rewrite Hc.
  - rewrite rstrip_not_empty; rewrite IH; try congruence; assumption.
Qed.

(** Trimming on the right keeps a text that ends with a word without
    white space. *)
Lemma rstrip_ends_no_space (a b : string) :
  b <> EmptyString -> no_space b -> rstrip (a ++ b) = a ++ b.
Proof.
  intros Hne Hb. induction a as [|c a IH].
  - cbn. now apply rstrip_no_space.
  - cbn [append].
    assert (Hab : a ++ b <> EmptyString)
      by (destruct a; [destruct b; [congruence | discriminate] | discriminate]).
    rewrite rstrip_not_empty by (rewrite IH; exact Hab). now rewrite IH.
Qed.

Lemma rstrip_trailing_space (a : string) (c : ascii) :
  is_space c = true -> rstrip (a ++ String c EmptyString) = rstrip a.
Proof.
  intros Hc. induction a as [|x a IH].
  - cbn. now rewrite Hc.
  - cbn [append rstrip]. now rewrite IH.
Qed.

Lemma strip_trailing_space (a : string) (c : ascii) :
  is_space c = true -> strip (a ++ String c EmptyString) = strip a.
Proof.
  intros Hc. unfold strip. induction a as [|x a IH].
  - cbn. now rewrite Hc.
  - cbn [append lstrip]. destruct (is_space x); [exact IH|].
    change (String x (a ++ String c EmptyString))
      with (String x a ++ String c EmptyString).
    now apply rstrip_trailing_space.
Qed.

Lemma strip_leading_space (a : string) (c : ascii) :
  is_space c = true -> strip (String c a) = strip a.
Proof. intros Hc. unfold strip. cbn. now rewrite Hc. Qed.

Lemma lstrip_starts_no_space (a b : string) :
  a <> EmptyString -> no_space a -> lstrip (a ++ b) = a ++ b.
Proof.
  unfold no_space. destruct a as [|c a]; [congruence|]. intros _ H.
  cbn in H. apply andb_prop in H as [Hc _]. apply negb_true_iff in Hc.
  cbn. now rewrite Hc.
Qed.

(** [strip] leaves a word without white space as it is ... *)
Lemma strip_no_space (s : string) :
  s <> EmptyString -> no_space s -> strip s = s.
Proof.
  intros Hne Hs. unfold strip.
  rewrite <- (append_empty_r s) at 1.
  rewrite lstrip_starts_no_space, append_empty_r by assumption.
  now apply rstrip_no_space.
Qed.

(** ... removes the space after it ... *)
Lemma strip_word_space (s : string) :
  s <> EmptyString -> no_space s -> strip (s ++ " " ++ EmptyString) = s.
Proof.
  intros Hne Hs. cbn [append]. rewrite strip_trailing_space by reflexivity.
  now apply strip_no_space.
Qed.

(** ... and keeps two such words with the space between them. *)
Lemma strip_two_words (a b : string) :
  a <> EmptyString -> no_space a -> b <> EmptyString -> no_space b ->
  strip (a ++ " " ++ b) = a ++ " " ++ b.
Proof.
  intros Ha Hsa Hb Hsb. unfold strip.
  rewrite lstrip_starts_no_space by assumption.
  rewrite <- append_associative. now apply rstrip_ends_no_space.
Qed.

End Strings.

(* ================================================================= *)
(** * Facts about the [re] engine *)

Section Matching.
Import Re ReLang.

Lemma rmatch_Seq r1 r2 s cs k :
  rmatch (Seq r1 r2) s cs k = rmatch r1 s cs (fun s' cs' => rmatch r2 s' cs' k).
Proof. reflexivity. Qed.

Lemma rmatch_Group n r s cs k :
  rmatch (Group n r) s cs k
  = rmatch r s cs (fun s' cs' => k s' ((n, consumed s s') :: cs')).
Proof. reflexivity. Qed.

Lemma rmatch_Opt r s cs k :
  rmatch (Opt r) s cs k
  = match rmatch r s cs k with Some res => Some res | None => k s cs end.
Proof. reflexivity. Qed.

(** A successful repetition has read a run of the class and handed the
    rest to the continuation. *)
Lemma star_sound p s k res :
  star p s k = Some res ->
  exists w s', s = w ++ s'
    /\ forallb p (list_ascii_of_string w) = true /\ k s' = Some res.
Proof.
  induction s as [|c s IH]; cbn; intros H.
  - exists EmptyString, EmptyString. auto.
  - destruct (p c) eqn:Hc.
    + destruct (star p s k) as [r|] eqn:Hs.
      * destruct (IH H) as [w [s' [-> [Hw Hk]]]].
        exists (String c w), s'. cbn. rewrite Hc, Hw.
        repeat split. exact Hk.
      * exists EmptyString, (String c s). auto.
    + exists EmptyString, (String c s). auto.
Qed.

(** A successful match of a pattern without groups has read a word of
    the pattern's language and handed over the rest, with the groups
    untouched. *)
Lemma rmatch_sound r :
  group_free r ->
  forall s cs k res,
    rmatch r s cs k = Some res ->
    exists w s', s = w ++ s' /\ lang r w /\ k s' cs = Some res.
Proof.
  induction r as [|c|p|p|r IH|r1 IH1 r2 IH2|r1 IH1 r2 IH2|n r IH];
    intros Hg s cs k res H; cbn in H.
  - exists EmptyString, s. cbn. auto.
  - destruct s as [|c' s]; [discriminate|].
    destruct (Ascii.eqb c' c) eqn:Hc; [|discriminate].
    apply Ascii.eqb_eq in Hc as ->.
    exists (String c EmptyString), s. cbn. auto.
  - apply star_sound in H as [w [s' [-> [Hw Hk]]]].
    exists w, s'. cbn. auto.
  - destruct s as [|c' s]; [discriminate|].
    destruct (p c') eqn:Hc; [|discriminate].
    apply star_sound in H as [w [s' [-> [Hw Hk]]]].
    exists (String c' w), s'. cbn. rewrite Hc, Hw.
    repeat split; [discriminate | exact Hk].
  - destruct (rmatch r s cs k) as [res'|] eqn:Hr.
    + destruct (IH Hg _ _ _ _ Hr) as [w [s' [-> [Hw Hk]]]].
      exists w, s'. cbn. repeat split; [now right | congruence].
    + exists EmptyString, s. cbn. auto.
  - destruct Hg as [Hg1 Hg2].
    destruct (IH1 Hg1 _ _ _ _ H) as [w1 [s1 [-> [Hw1 H2]]]].
    destruct (IH2 Hg2 _ _ _ _ H2) as [w2 [s2 [-> [Hw2 Hk]]]].
    exists (w1 ++ w2), s2. rewrite append_associative.
    repeat split; [|exact Hk]. cbn. exists w1, w2. auto.
  - destruct Hg as [Hg1 Hg2].
    destruct (rmatch r1 s cs k) as [res'|] eqn:Hr.
    + destruct (IH1 Hg1 _ _ _ _ Hr) as [w [s' [-> [Hw Hk]]]].
      exists w, s'. cbn. repeat split; [now left | congruence].
    + destruct (IH2 Hg2 _ _ _ _ H) as [w [s' [-> [Hw Hk]]]].
      exists w, s'. cbn. repeat split; [now right | exact Hk].
  - destruct Hg.
Qed.

Lemma lang_nullable r w : lang r w -> w = EmptyString -> nullable r = true.
Proof.
  revert w. induction r as [|c|p|p|r IH|r1 IH1 r2 IH2|r1 IH1 r2 IH2|n r IH];
    cbn; intros w H Hw; subst w; try reflexivity.
  - discriminate.
  - destruct H; congruence.
  - destruct H as [w1 [w2 [Hw [H1 H2]]]]. symmetry in Hw.
    apply append_is_empty in Hw as [-> ->].
    now rewrite (IH1 _ H1), (IH2 _ H2).
  - destruct H as [H|H]; [rewrite (IH1 _ H) | rewrite (IH2 _ H)];
      auto using orb_true_r.
  - eauto.
Qed.

Lemma lang_spaceless r w : spaceless r -> lang r w -> no_space w.
Proof.
  assert (Hrun : forall p w,
             (forall c, p c = true -> is_space c = false) ->
             forallb p (list_ascii_of_string w) = true -> no_space w).
  { intros p v Hp. unfold no_space. induction v as [|c v IH]; cbn; [auto|].
    intros H. apply andb_prop in H as [Hc Hv].
    rewrite (Hp c Hc), IH; auto. }
  revert w. induction r as [|c|p|p|r IH|r1 IH1 r2 IH2|r1 IH1 r2 IH2|n r IH];
    cbn; intros w Hs H.
  - subst w. reflexivity.
  - subst w. unfold no_space. cbn. now rewrite Hs.
  - eauto.
  - destruct H. eauto.
  - destruct H as [->|H]; [reflexivity | eauto].
  - destruct Hs as [Hs1 Hs2]. destruct H as [w1 [w2 [-> [H1 H2]]]].
    apply no_space_append; eauto.
  - destruct Hs as [Hs1 Hs2]. destruct H as [H|H]; eauto.
  - eauto.
Qed.

(** Every match [re.findall] reports is a match of the pattern at some
    place of the text. *)
Lemma scan_sound r cs : forall s skip,
  In cs (scan r s skip) ->
  exists s0 rest, match_here r s0 = Some (rest, cs).
Proof.
  induction s as [|c s IH]; intros skip H.
  - destruct skip as [|n]; cbn in H; [|destruct H].
    destruct (match_here r EmptyString) as [[rest cs']|] eqn:Hm; [|destruct H].
    destruct H as [<-|[]]. eauto.
  - destruct skip as [|n]; cbn [scan] in H; [|eauto].
    destruct (match_here r (String c s)) as [[rest cs']|] eqn:Hm; [|eauto].
    destruct H as [<-|H]; eauto.
Qed.

End Matching.

(* ================================================================= *)
(** * Properties of the value extractor *)

Section Extractor.
Import Re ReLang.

Lemma number_char_no_space c : number_char c = true -> is_space c = false.
Proof. destruct c as [[] [] [] [] [] [] [] []]; vm_compute; congruence. Qed.

Lemma digit_no_space c : is_digit c = true -> is_space c = false.
Proof. destruct c as [[] [] [] [] [] [] [] []]; vm_compute; congruence. Qed.

Lemma unit_regex_spaceless : spaceless unit_regex.
Proof. cbn. repeat split; auto using digit_no_space. Qed.

Lemma unit_regex_group_free : group_free unit_regex.
Proof. cbn. repeat split. Qed.

(** A number is a word without white space, and so is a unit. *)
Lemma number_word number :
  lang (Plus number_char) number -> number <> EmptyString /\ no_space number.
Proof.
  intros H. split; [exact (proj1 H)|].
  apply (lang_spaceless (Plus number_char)); [|exact H].
  exact number_char_no_space.
Qed.

Lemma unit_word unit :
  lang unit_regex unit -> unit <> EmptyString /\ no_space unit.
Proof.
  intros H. split.
  - intros He. pose proof (lang_nullable _ _ H He) as Hn. discriminate Hn.
  - exact (lang_spaceless _ _ unit_regex_spaceless H).
Qed.

(** What a match of the pattern captures, and that it is not empty. *)
Lemma medical_match_shape s rest cs :
  match_here medical_pattern s = Some (rest, cs) ->
  exists label number unit,
    lang (Plus label_char) label
    /\ lang (Plus number_char) number
    /\ (unit = EmptyString \/ lang unit_regex unit)
    /\ (group_text 1 cs, group_text 2 cs, group_text 3 cs) = (label, number, unit)
    /\ String.length rest < String.length s.
Proof.
  unfold match_here, medical_pattern. intros H.
  rewrite rmatch_Seq, rmatch_Group in H.
  apply (rmatch_sound (Plus label_char) I) in H as [w1 [s1 [-> [H1 H]]]].
  rewrite consumed_prefix, rmatch_Seq in H.
  apply (rmatch_sound (Plus separator_char) I) in H as [w2 [s2 [-> [H2 H]]]].
  rewrite rmatch_Seq, rmatch_Group in H.
  apply (rmatch_sound (Plus number_char) I) in H as [w3 [s3 [-> [H3 H]]]].
  rewrite consumed_prefix, rmatch_Seq in H.
  apply (rmatch_sound (Star is_space) I) in H as [w4 [s4 [-> [H4 H]]]].
  rewrite rmatch_Opt in H.
  assert (Hlen : forall t, String.length t
                   < String.length (w1 ++ w2 ++ w3 ++ w4 ++ t)).
  { intros t. rewrite !length_append. destruct H1 as [Hne _].
    destruct w1; [congruence | cbn; lia]. }
  destruct (rmatch (Group 3 unit_regex) s4 _ _) as [res|] eqn:Hu.
  - injection H as ->. rewrite rmatch_Group in Hu.
    apply (rmatch_sound unit_regex unit_regex_group_free) in Hu
      as [w5 [s5 [-> [H5 Hu]]]].
    rewrite consumed_prefix in Hu. injection Hu as <- <-.
    exists w1, w3, w5.
    split; [exact H1|]. split; [exact H3|]. split; [now right|].
    split; [reflexivity|].
    specialize (Hlen (w5 ++ s5)). rewrite !length_append in *. lia.
  - injection H as <- <-. exists w1, w3, EmptyString.
    split; [exact H1|]. split; [exact H3|]. split; [now left|].
    split; [reflexivity | apply Hlen].
Qed.

(** [f"{value} {unit}".strip()] for what a match captures. *)
Lemma match_value_format label number unit :
  lang (Plus number_char) number ->
  unit = EmptyString \/ lang unit_regex unit ->
  match_value (label, number, unit) = number_and_unit number unit.
Proof.
  intros Hn Hu. apply number_word in Hn as [Hne Hns].
  unfold match_value, number_and_unit. rewrite (strip_no_space number Hne Hns).
  destruct Hu as [->|Hu].
  - cbn [is_empty]. now apply strip_word_space.
  - apply unit_word in Hu as [Hue Hus].
    destruct unit as [|c u]; [congruence|]. cbn [is_empty].
    rewrite (strip_no_space _ Hue Hus). now apply strip_two_words.
Qed.

Lemma dict_set_in {V} (k k' : string) (v v' : V) (d : Dict.dict V) :
  In (k, v) (Dict.set k' v' d) -> (k = k' /\ v = v') \/ In (k, v) d.
Proof.
  induction d as [|[k0 v0] d IH]; cbn.
  - intros [[= <- <-]|[]]. now left.
  - destruct (String.eqb k0 k') eqn:Hk; cbn.
    + apply String.eqb_eq in Hk as ->.
      intros [[= <- <-]|H]; [now left | now right; right].
    + intros [H|H]; [now right; left|].
      destruct (IH H); [now left | now right; right].
Qed.

(** Every entry of the map comes from a match. *)
Lemma fold_store_in ms : forall d k v,
  In (k, v) (fold_left store_match ms d) ->
  In (k, v) d \/ exists m, In m ms /\ k = match_label m /\ v = match_value m.
Proof.
  induction ms as [|m ms IH]; cbn; intros d k v H; [now left|].
  destruct (IH _ _ _ H) as [Hd | [m' [Hin Hm]]].
  - apply dict_set_in in Hd as [[-> ->]|Hd]; [right; exists m | left]; auto.
  - right. exists m'. auto.
Qed.

Lemma dict_get_set {V} (k k' : string) (v : V) (d : Dict.dict V) :
  Dict.get k (Dict.set k' v d)
  = if String.eqb k' k then Some v else Dict.get k d.
Proof.
  induction d as [|[k0 v0] d IH]; cbn; [reflexivity|].
  destruct (String.eqb k0 k') eqn:Hk; cbn.
  - apply String.eqb_eq in Hk as ->. now destruct (String.eqb k' k).
  - rewrite IH. destruct (String.eqb k0 k) eqn:H0; [|reflexivity].
    apply String.eqb_eq in H0 as ->. now rewrite String.eqb_sym, Hk.
Qed.

(** Reading the map gives the last value stored under the label. *)
Lemma dict_get_fold ms : forall d label,
  Dict.get label (fold_left store_match ms d)
  = match last_value label ms with
    | Some v => Some v
    | None => Dict.get label d
    end.
Proof.
  induction ms as [|m ms IH]; cbn; intros d label; [reflexivity|].
  rewrite IH. destruct (last_value label ms); [reflexivity|].
  unfold store_match. rewrite dict_get_set.
  now destruct (String.eqb (match_label m) label).
Qed.

Lemma last_value_none label ms :
  (forall m, In m ms -> match_label m <> label) -> last_value label ms = None.
Proof.
  induction ms as [|m ms IH]; cbn; intros H; [reflexivity|].
  rewrite IH by auto.
  destruct (String.eqb_spec (match_label m) label) as [He|]; [|reflexivity].
  exfalso. apply (H m); auto.
Qed.

(** The last match with a label decides the value under that label. *)
Lemma last_value_last before m after :
  (forall m', In m' after -> match_label m' <> match_label m) ->
  last_value (match_label m) (before ++ m :: after)%list = Some (match_value m).
Proof.
  intros H. induction before as [|x before IH]; cbn.
  - rewrite (last_value_none _ _ H), String.eqb_refl. reflexivity.
  - now rewrite IH.
Qed.

Lemma dict_keys_set {V} (x k : string) (v : V) (d : Dict.dict V) :
  In x (Dict.keys (Dict.set k v d)) -> x = k \/ In x (Dict.keys d).
Proof.
  induction d as [|[k0 v0] d IH]; cbn.
  - intros [<-|[]]. now left.
  - destruct (String.eqb k0 k); cbn; [now right|].
    intros [H|H]; [now right; left|]. destruct (IH H); auto.
Qed.

Lemma dict_set_nodup {V} (k : string) (v : V) (d : Dict.dict V) :
  NoDup (Dict.keys d) -> NoDup (Dict.keys (Dict.set k v d)).
Proof.
  induction d as [|[k0 v0] d IH]; cbn; intros H.
  - constructor; [intros [] | constructor].
  - destruct (String.eqb k0 k) eqn:Hk; cbn; [exact H|].
    inversion H as [|? ? Hnotin Hd]; subst. constructor; [|auto].
    intros Hin. apply dict_keys_set in Hin as [->|Hin]; [|contradiction].
    now rewrite String.eqb_refl in Hk.
Qed.

Lemma fold_store_nodup ms : forall d,
  NoDup (Dict.keys d) -> NoDup (Dict.keys (fold_left store_match ms d)).
Proof.
  induction ms as [|m ms IH]; cbn; intros d H; [exact H|].
  apply IH. now apply dict_set_nodup.
Qed.

Lemma fold_store_not_empty ms : forall d,
  d <> [] -> fold_left store_match ms d <> [].
Proof.
  induction ms as [|m ms IH]; cbn; intros d H; [exact H|].
  apply IH. unfold store_match. destruct d as [|[k0 v0] d]; cbn; [discriminate|].
  destruct (String.eqb k0 (match_label m)); discriminate.
Qed.

(** The map is empty exactly when the pattern matches nowhere. *)
Lemma extract_empty_iff text :
  extract_medical_values text = [] <-> findall3 medical_pattern text = [].
Proof.
  unfold extract_medical_values. split.
  - destruct (findall3 medical_pattern text) as [|m ms]; [reflexivity|].
    cbn [fold_left]. intros H. exfalso. revert H.
    apply fold_store_not_empty. discriminate.
  - intros ->. reflexivity.
Qed.

End Extractor.

Lemma last_value_found label ms :
  (exists m, In m ms /\ match_label m = label) ->
  exists v, last_value label ms = Some v.
Proof.
  induction ms as [|x ms IH]; intros [m [Hin Hm]]; [destruct Hin|].
  cbn. destruct (last_value label ms) as [v|] eqn:Hl; [eauto|].
  destruct Hin as [->|Hin].
  - rewrite Hm, String.eqb_refl. eauto.
  - destruct IH as [v Hv]; [eauto | discriminate Hv].
Qed.

Lemma dict_absent_no_entry {V} (k : string) (d : Dict.dict V) :
  ~ In k (Dict.keys d) -> filter (fun kv => String.eqb (fst kv) k) d = [].
Proof.
  induction d as [|[k0 v0] d IH]; cbn; intros H; [reflexivity|].
  destruct (String.eqb_spec k0 k) as [->|_]; [exfalso; auto|].
  apply IH. auto.
Qed.

(** A key that can be read has exactly one entry. *)
Lemma dict_one_entry {V} (k : string) (v : V) (d : Dict.dict V) :
  NoDup (Dict.keys d) -> Dict.get k d = Some v ->
  List.length (filter (fun kv => String.eqb (fst kv) k) d) = 1.
Proof.
  induction d as [|[k0 v0] d IH]; cbn; intros Hnd Hget; [discriminate|].
  inversion Hnd as [|? ? Hnotin Hd]; subst.
  destruct (String.eqb_spec k0 k) as [->|_].
  - cbn. now rewrite dict_absent_no_entry.
  - now apply IH.
Qed.

(** C8.  When matches have the same trimmed label, they share one entry
    of the map, and it holds the value of the last of them: reading the
    map at the trimmed label of a match after which no match has the same
    trimmed label gives that match's value, the trimmed label of every
    match has exactly one entry, and no key occurs twice.  The text with
    the line [A: 1] followed by the line [A: 2] has two matches labelled
    [A] and yields [{"A": "2"}]; so do the two occurrences separated by a
    space or by nothing.  In the text with the lines [A: 1 g/dL] and
    [A: 2 g/dL] the second match captures the line feed with its label;
    trimmed, the two labels are one key, and the map is
    [{"A": "2 g/dL"}]. *)
Theorem last_occurrence_wins :
  (forall text before parameter value unit after,
     Re.findall3 medical_pattern text
       = (before ++ (parameter, value, unit) :: after)%list ->
     (forall parameter' value' unit',
        In (parameter', value', unit') after ->
        strip parameter' <> strip parameter) ->
     Dict.get (strip parameter) (extract_medical_values text)
     = Some (strip (strip value ++ " "
                      ++ (if is_empty unit then EmptyString else strip unit))))
  /\ (forall text parameter value unit,
        In (parameter, value, unit) (Re.findall3 medical_pattern text) ->
        List.length (filter (fun kv => String.eqb (fst kv) (strip parameter))
                            (extract_medical_values text)) = 1)
  /\ (forall text, NoDup (Dict.keys (extract_medical_values text)))
  /\ Re.findall3 medical_pattern ("A: 1" ++ String LF "A: 2")
     = [("A", "1", EmptyString); ("A", "2", EmptyString)]
  /\ extract_medical_values ("A: 1" ++ String LF "A: 2") = [("A", "2")]
  /\ extract_medical_values "A: 1 A: 2" = [("A", "2")]
  /\ extract_medical_values "A: 1A: 2" = [("A", "2")]
  /\ Re.findall3 medical_pattern ("A: 1 g/dL" ++ String LF "A: 2 g/dL")
     = [("A", "1", "g/dL"); (String LF "A", "2", "g/dL")]
  /\ extract_medical_values ("A: 1 g/dL" ++ String LF "A: 2 g/dL")
     = [("A", "2 g/dL")]
  /\ extract_medical_values ("B: 1 g/dL" ++ String LF " A : 2 %" ++ String LF "B: 3")
     = [("B", "3"); ("A", "2 %")].
Proof.
  split; [|split; [|split]].
  - intros text before parameter value unit after Hm Hlast.
    unfold extract_medical_values. rewrite dict_get_fold, Hm.
    change (strip parameter) with (match_label (parameter, value, unit)).
    rewrite (last_value_last before (parameter, value, unit) after).
    + reflexivity.
    + intros [[parameter' value'] unit'] Hin. exact (Hlast _ _ _ Hin).
  - intros text parameter value unit Hin.
    destruct (last_value_found (strip parameter)
                (Re.findall3 medical_pattern text)) as [v Hv].
    { exists (parameter, value, unit). split; [exact Hin | reflexivity]. }
    apply (dict_one_entry (strip parameter) v).
    + apply fold_store_nodup. constructor.
    + unfold extract_medical_values. rewrite dict_get_fold, Hv. reflexivity.
  - intros text. apply fold_store_nodup. constructor.
  - repeat split; vm_compute; reflexivity.
Qed.

Lemma last_occurrence_wins_witness :
  Dict.get "A" (extract_medical_values ("A: 1 g/dL" ++ String LF "A: 2 g/dL"))
    = Some "2 g/dL"
  /\ List.length
       (filter (fun kv => String.eqb (fst kv) "A")
               (extract_medical_values ("A: 1 g/dL" ++ String LF "A: 2 g/dL")))
     = 1.
Proof.
  split.
  - apply (proj1 last_occurrence_wins ("A: 1 g/dL" ++ String LF "A: 2 g/dL")
             [("A", "1", "g/dL")] (String LF "A") "2" "g/dL" []).
    + vm_compute. reflexivity.
    + intros parameter' value' unit' [].
  - apply (proj1 (proj2 last_occurrence_wins)
             ("A: 1 g/dL" ++ String LF "A: 2 g/dL") (String LF "A") "2" "g/dL").
    vm_compute. right. left. reflexivity.
Defined.

(** C9.  The text [Hemoglobin: 9.5 g/dL] yields exactly
    [{"Hemoglobin": "9.5 g/dL"}].  In general every value of the map is
    [<number> <unit>] for the number and the unit of a match, and just
    [<number>], without the space, when no recognized unit follows the
    number. *)
Theorem value_is_number_and_unit :
  extract_medical_values "Hemoglobin: 9.5 g/dL" = [("Hemoglobin", "9.5 g/dL")]
  /\ forall text label value,
       In (label, value) (extract_medical_values text) ->
       exists parameter number unit,
         In (parameter, number, unit) (Re.findall3 medical_pattern text)
         /\ label = strip parameter
         /\ ReLang.lang (Re.Plus number_char) number
         /\ (unit = EmptyString \/ ReLang.lang unit_regex unit)
         /\ value = (if is_empty unit then number else number ++ " " ++ unit).
Proof.
  split; [vm_compute; reflexivity|].
  intros text label value H. unfold extract_medical_values in H.
  apply fold_store_in in H as [[] | [m [Hin [-> ->]]]].
  pose proof Hin as Hin'. unfold Re.findall3 in Hin'.
  apply in_map_iff in Hin' as [cs [Hm Hcs]].
  apply scan_sound in Hcs as [s0 [rest Hmatch]].
  apply medical_match_shape in Hmatch
    as [parameter [number [unit [_ [Hn [Hu [Hg _]]]]]]].
  rewrite Hg in Hm. subst m. exists parameter, number, unit.
  split; [exact Hin|]. split; [reflexivity|]. split; [exact Hn|].
  split; [exact Hu|]. now apply match_value_format.
Qed.

Lemma value_is_number_and_unit_witness :
  In ("WBC -", "11.2 x10^9/L") (extract_medical_values "WBC - 11.2 x10^9/L")
  /\ exists parameter number unit,
       In (parameter, number, unit)
          (Re.findall3 medical_pattern "WBC - 11.2 x10^9/L")
       /\ "WBC -" = strip parameter
       /\ ReLang.lang (Re.Plus number_char) number
       /\ (unit = EmptyString \/ ReLang.lang unit_regex unit)
       /\ "11.2 x10^9/L" = (if is_empty unit then number else number ++ " " ++ unit).
Proof.
  assert (H : In ("WBC -", "11.2 x10^9/L")
                 (extract_medical_values "WBC - 11.2 x10^9/L"))
    by (vm_compute; left; reflexivity).
  split; [exact H|].
  exact (proj2 value_is_number_and_unit "WBC - 11.2 x10^9/L" "WBC -"
           "11.2 x10^9/L" H).
Defined.

(* ================================================================= *)
(** * Properties of the PDF text extraction *)

Section Pdf.

Lemma add_pages_strings texts : forall text,
  add_pages text (map Some texts) = Ok (text ++ pages_text texts).
Proof.
  induction texts as [|t texts IH]; cbn; intros text.
  - now rewrite append_empty_r.
  - rewrite IH. f_equal. rewrite !append_associative. reflexivity.
Qed.

Lemma pages_text_app before after :
  pages_text (before ++ after) = pages_text before ++ pages_text after.
Proof.
  induction before as [|t before IH]; cbn; [reflexivity|].
  rewrite IH, append_associative. reflexivity.
Qed.

(** A page for which the extraction returns [None] stops the loop with a
    [TypeError]. *)
Lemma add_pages_none before after : forall text,
  add_pages text (map Some before ++ None :: after)
  = Raise "unsupported operand type(s) for +: 'NoneType' and 'str'".
Proof.
  induction before as [|t before IH]; cbn; intros text; [reflexivity | apply IH].
Qed.

Variable B : Backend.

Lemma extract_pdf_strings pdf_bytes texts :
  pdf_pages B pdf_bytes = Ok (map Some texts) ->
  extract_text_from_pdf B pdf_bytes = Ok (strip (pages_text texts)).
Proof.
  intros H. unfold extract_text_from_pdf. rewrite H, add_pages_strings.
  reflexivity.
Qed.

End Pdf.

(** C6, as stated, fails.  A page without text between two others leaves
    its line feed behind: the result is not the text of the remaining
    pages joined by single line feeds.  And a page for which
    [extract_text] returns [None] makes the whole extraction raise. *)
Lemma page_without_text_counterexample :
  let pdf pages :=
    extract_text_from_pdf (Demo.backend (Ok pages) (Ok "a") (Ok "s") (Ok "[]"))
      "%PDF-1.7" in
  pdf [Some "a"; Some EmptyString; Some "b"]
    = Ok ("a" ++ String LF (String LF "b"))
  /\ pdf [Some "a"; Some "b"] = Ok ("a" ++ String LF "b")
  /\ pdf [Some "a"; Some EmptyString; Some "b"] <> pdf [Some "a"; Some "b"]
  /\ pdf [Some "a"; None; Some "b"]
     = Raise "unsupported operand type(s) for +: 'NoneType' and 'str'".
Proof.
  cbv zeta. split; [reflexivity|]. split; [reflexivity|].
  split; [vm_compute; discriminate | reflexivity].
Qed.

(** C6, amended.  When every page of the PDF yields a string, a page that
    yields the empty string contributes nothing but its line feed: the
    extraction does not fail and returns the texts of the pages, each
    followed by a line feed, trimmed.  With no page before it, or none
    after it, this is the trimmed text of the remaining pages. *)
Theorem page_without_text (B : Backend) (pdf_bytes : string)
    (before after : list string) :
  pdf_pages B pdf_bytes = Ok (map Some (before ++ EmptyString :: after)) ->
  extract_text_from_pdf B pdf_bytes
    = Ok (strip (pages_text before ++ String LF (pages_text after)))
  /\ strip (pages_text before ++ String LF (pages_text []))
     = strip (pages_text before)
  /\ strip (pages_text [] ++ String LF (pages_text after))
     = strip (pages_text after).
Proof.
  intros H. rewrite (extract_pdf_strings B pdf_bytes _ H), pages_text_app.
  cbn [pages_text append]. split; [reflexivity|]. split.
  - now rewrite strip_trailing_space.
  - now rewrite strip_leading_space.
Qed.

Lemma page_without_text_witness :
  extract_text_from_pdf
    (Demo.backend (Ok [Some "Hemoglobin: 9.5 g/dL"; Some EmptyString;
                       Some "WBC - 11.2 x10^9/L"])
                  (Ok "a") (Ok "s") (Ok "[]")) "%PDF-1.7"
  = Ok (strip (pages_text ["Hemoglobin: 9.5 g/dL"]
                 ++ String LF (pages_text ["WBC - 11.2 x10^9/L"]))).
Proof.
  apply (page_without_text
           (Demo.backend (Ok [Some "Hemoglobin: 9.5 g/dL"; Some EmptyString;
                              Some "WBC - 11.2 x10^9/L"])
                         (Ok "a") (Ok "s") (Ok "[]")) "%PDF-1.7"
           ["Hemoglobin: 9.5 g/dL"] ["WBC - 11.2 x10^9/L"]).
  reflexivity.
Defined.

(* ================================================================= *)
(** * Properties of the analyzer *)

Section Analyzer.

Variable B : Backend.

(** The analyzer step by step, once the parameter map is not empty. *)
Lemma detect_run (text : string) (w : World) :
  extract_medical_values text <> [] ->
  let prompt := analysis_prompt (extract_medical_values text) in
  detect_abnormalities_llm B text w =
    (match llm_invoke B prompt with
     | Ok response =>
         match json_loads B response with
         | Ok v => Ok v
         | Raise e => Ok (analysis_error e)
         end
     | Raise e => Ok (analysis_error e)
     end, after_request prompt w).
Proof.
  intros Hne prompt. unfold detect_abnormalities_llm.
  destruct (extract_medical_values text) as [|kv d] eqn:Hd; [congruence|].
  cbn [Dict.is_empty]. fold prompt.
  unfold Eff.try_except, Eff.bind, Eff.request, Eff.lift, Eff.ret, after_request.
  destruct (llm_invoke B prompt) as [response|e]; [|reflexivity].
  destruct (json_loads B response) as [v|e]; reflexivity.
Qed.

Lemma detect_empty (text : string) (w : World) :
  extract_medical_values text = [] ->
  detect_abnormalities_llm B text w = (Ok no_values_message, w).
Proof.
  intros He. unfold detect_abnormalities_llm. rewrite He. reflexivity.
Qed.

(** The analyzer returns: no exception leaves it. *)
Lemma detect_returns (text : string) (w : World) :
  exists v, fst (detect_abnormalities_llm B text w) = Ok v.
Proof.
  destruct (extract_medical_values text) as [|kv d] eqn:Hd.
  - rewrite detect_empty by assumption. eexists; reflexivity.
  - rewrite detect_run by congruence. cbn [fst].
    destruct (llm_invoke B _) as [response|e]; [|eexists; reflexivity].
    destruct (json_loads B response); eexists; reflexivity.
Qed.

(** The analyzer never touches the report store. *)
Lemma detect_keeps_report (text : string) (w : World) :
  latest_report (snd (detect_abnormalities_llm B text w)) = latest_report w.
Proof.
  destruct (extract_medical_values text) as [|kv d] eqn:Hd.
  - rewrite detect_empty by assumption. reflexivity.
  - rewrite detect_run by congruence. reflexivity.
Qed.

Lemma detect_failure (text e : string) (w : World) :
  extract_medical_values text <> [] ->
  analysis_fails B text e ->
  detect_abnormalities_llm B text w =
    (Ok (analysis_error e),
     after_request (analysis_prompt (extract_medical_values text)) w).
Proof.
  intros Hne Hfail. rewrite detect_run by assumption.
  destruct Hfail as [Hr | [response [Hr Hj]]]; rewrite Hr; [|rewrite Hj];
    reflexivity.
Qed.

End Analyzer.

(** C4.  When [extract_medical_values] returns an empty map, which it
    does exactly when the pattern matches nowhere in the text, the analyzer
    returns exactly [{"message": "No medical values found for analysis."}]
    and the world is as before: no request was sent to the model. *)
Theorem no_values_no_request (B : Backend) (text : string) (w : World) :
  extract_medical_values text = [] ->
  Re.findall3 medical_pattern text = []
  /\ detect_abnormalities_llm B text w
      = (Ok (PyDict [("message", PyStr "No medical values found for analysis.")]), w)
  /\ llm_calls (snd (detect_abnormalities_llm B text w)) = llm_calls w.
Proof.
  intros He. rewrite (detect_empty B text w He).
  split; [now apply extract_empty_iff | split; reflexivity].
Qed.

Lemma no_values_no_request_witness :
  extract_medical_values "The patient feels well." = []
  /\ detect_abnormalities_llm Demo.offline "The patient feels well." Demo.fresh
     = (Ok (PyDict [("message", PyStr "No medical values found for analysis.")]),
        Demo.fresh).
Proof.
  split; [reflexivity|].
  apply (proj2 (no_values_no_request Demo.offline "The patient feels well."
                  Demo.fresh eq_refl)).
Defined.

(** C5.  With a parameter map that is not empty, when the call of the
    model raises or its reply is not valid JSON, the analyzer returns
    [{"error": "LLM analysis failed: <message>"}], the message being that
    of the exception; it returns, so no exception leaves it. *)
Theorem failed_analysis_is_an_error_payload
    (B : Backend) (text e : string) (w : World) :
  extract_medical_values text <> [] ->
  analysis_fails B text e ->
  fst (detect_abnormalities_llm B text w)
    = Ok (PyDict [("error", PyStr ("LLM analysis failed: " ++ e))]).
Proof.
  intros Hne Hfail. rewrite (detect_failure B text e w Hne Hfail). reflexivity.
Qed.

Lemma failed_analysis_is_an_error_payload_witness :
  fst (detect_abnormalities_llm
         (Demo.one_page (Ok "Low hemoglobin.") (Raise Demo.connection_error))
         Demo.report_text Demo.fresh)
    = Ok (PyDict [("error", PyStr "LLM analysis failed: Connection error.")])
  /\ fst (detect_abnormalities_llm
            (Demo.one_page (Ok "Low hemoglobin.") (Ok "Sorry, I cannot help."))
            Demo.report_text Demo.fresh)
     = Ok (PyDict [("error",
             PyStr "LLM analysis failed: Expecting value: line 1 column 1 (char 0)")]).
Proof.
  split.
  - apply (failed_analysis_is_an_error_payload
             (Demo.one_page (Ok "Low hemoglobin.") (Raise Demo.connection_error))
             Demo.report_text Demo.connection_error Demo.fresh).
    + vm_compute. discriminate.
    + left. reflexivity.
  - apply (failed_analysis_is_an_error_payload
             (Demo.one_page (Ok "Low hemoglobin.") (Ok "Sorry, I cannot help."))
             Demo.report_text "Expecting value: line 1 column 1 (char 0)" Demo.fresh).
    + vm_compute. discriminate.
    + right. exists "Sorry, I cannot help.". split; reflexivity.
Defined.

(** C2, as stated, fails: the analyzer returns whatever the reply decodes
    to.  On the replies [[]] and [{}] the result is a list, and a [dict]
    without keys; neither has one of the three shapes. *)
Lemma bare_reply_has_no_shape :
  fst (detect_abnormalities_llm (Demo.one_page (Ok "Low hemoglobin.") (Ok "[]"))
         Demo.report_text Demo.fresh) = Ok (PyList [])
  /\ ~ analysis_shape (PyList [])
  /\ fst (detect_abnormalities_llm (Demo.one_page (Ok "Low hemoglobin.") (Ok "{}"))
            Demo.report_text Demo.fresh) = Ok (PyDict [])
  /\ ~ analysis_shape (PyDict []).
Proof.
  split; [reflexivity|]. split.
  - intros [[ks [Hk _]] | [Hk | Hk]]; discriminate Hk.
  - split; [reflexivity|].
    intros [[ks [Hk Hin]] | [Hk | Hk]]; try discriminate Hk.
    injection Hk as <-. destruct Hin.
Qed.

(** C2, amended.  The result of the analyzer is the [dict] whose only key
    is ["message"] (exactly when the parameter map is empty), or a [dict]
    whose only key is ["error"] (the call raised or the reply is not
    JSON), or the very value the reply decodes to, whatever its shape: it
    has the key ["abnormalities"] only if the model's JSON has it. *)
Theorem analysis_result_cases (B : Backend) (text : string) (w : World) :
  let r := fst (detect_abnormalities_llm B text w) in
  let prompt := analysis_prompt (extract_medical_values text) in
  (extract_medical_values text = []
   /\ r = Ok no_values_message /\ only_key "message" no_values_message)
  \/ (extract_medical_values text <> []
      /\ exists e, analysis_fails B text e
           /\ r = Ok (analysis_error e) /\ only_key "error" (analysis_error e))
  \/ (extract_medical_values text <> []
      /\ exists response v,
           llm_invoke B prompt = Ok response
           /\ json_loads B response = Ok v /\ r = Ok v).
Proof.
  intros r prompt. subst r.
  destruct (extract_medical_values text) as [|kv d] eqn:Hd.
  - left. rewrite detect_empty by assumption. repeat split; reflexivity.
  - right. assert (Hne : extract_medical_values text <> []) by congruence.
    rewrite detect_run by assumption. cbn [fst]. rewrite Hd in *. fold prompt.
    destruct (llm_invoke B prompt) as [response|e] eqn:Hr.
    + destruct (json_loads B response) as [v|e] eqn:Hj.
      * right. split; [congruence|]. exists response, v. auto.
      * left. split; [congruence|]. exists e. repeat split.
        right. exists response. unfold prompt in Hr. rewrite <- Hd in Hr. auto.
    + left. split; [congruence|]. exists e. repeat split.
      left. unfold prompt in Hr. rewrite <- Hd in Hr. exact Hr.
Qed.

(* ================================================================= *)
(** * Properties of the pipeline *)

Section Orchestrator.

Variable B : Backend.

Lemma unsupported_extension_no_text (file ext : string) :
  supported_extension ext = false -> extract_text B file ext = Ok None.
Proof.
  unfold supported_extension, extract_text. cbn [existsb].
  intros H. apply orb_false_elim in H as [Hpdf H]. rewrite Hpdf, H. reflexivity.
Qed.

(** The three ways a run goes on once the file is read. *)
Lemma process_no_text (file : UploadFile) (w : World) (r : option string) :
  extract_text B (contents file) (extension_of file) = Ok r ->
  no_text r = true ->
  process_medical_report B file w = (Ok no_text_error, w).
Proof.
  intros He Hn. unfold process_medical_report, Eff.bind, Eff.lift.
  fold (extension_of file). rewrite He, Hn. reflexivity.
Qed.

Lemma process_summary_raises (file : UploadFile) (w : World)
    (r : option string) (e : string) :
  extract_text B (contents file) (extension_of file) = Ok r ->
  no_text r = false ->
  summary_chain_run B (split_text B (text_of r)) = Raise e ->
  process_medical_report B file w
    = (Ok (summarization_error e), after_summary (split_text B (text_of r)) w).
Proof.
  intros He Hn Hs. unfold process_medical_report, Eff.bind, Eff.lift.
  fold (extension_of file). rewrite He, Hn.
  unfold Eff.try_except, Eff.request. rewrite Hs. reflexivity.
Qed.

Lemma process_summarized (file : UploadFile) (w : World)
    (r : option string) (summary : string) :
  extract_text B (contents file) (extension_of file) = Ok r ->
  no_text r = false ->
  summary_chain_run B (split_text B (text_of r)) = Ok summary ->
  let w1 := after_summary (split_text B (text_of r)) w in
  forall v w2,
    detect_abnormalities_llm B (text_of r) w1 = (Ok v, w2) ->
    process_medical_report B file w
      = (Ok (report_of summary v), mkWorld (report_of summary v) (llm_calls w2)).
Proof.
  intros He Hn Hs w1 v w2 Hd. unfold process_medical_report, Eff.bind, Eff.lift.
  fold (extension_of file). rewrite He, Hn.
  unfold Eff.try_except, Eff.request. rewrite Hs.
  fold (after_summary (split_text B (text_of r)) w). fold w1. rewrite Hd.
  reflexivity.
Qed.

Lemma process_extraction_raises (file : UploadFile) (w : World) (e : string) :
  extract_text B (contents file) (extension_of file) = Raise e ->
  process_medical_report B file w = (Raise e, w).
Proof.
  intros He. unfold process_medical_report, Eff.bind, Eff.lift.
  fold (extension_of file). rewrite He. reflexivity.
Qed.

(** A run either leaves the store as it was or overwrites it with a whole
    report: the store never holds anything else. *)
Lemma process_store (file : UploadFile) (w : World) :
  let w' := snd (process_medical_report B file w) in
  latest_report w' = latest_report w
  \/ exists summary v, latest_report w' = report_of summary v.
Proof.
  cbv zeta.
  destruct (extract_text B (contents file) (extension_of file)) as [r|e] eqn:He.
  - destruct (no_text r) eqn:Hn.
    + rewrite (process_no_text file w r He Hn). now left.
    + destruct (summary_chain_run B (split_text B (text_of r)))
        as [summary|e] eqn:Hs.
      * destruct (detect_abnormalities_llm B (text_of r)
                    (after_summary (split_text B (text_of r)) w))
          as [res w2] eqn:Hd.
        destruct (detect_returns B (text_of r)
                    (after_summary (split_text B (text_of r)) w)) as [v Hv].
        rewrite Hd in Hv. cbn [fst] in Hv. subst res.
        rewrite (process_summarized file w r summary He Hn Hs v w2 Hd).
        right. exists summary, v. reflexivity.
      * rewrite (process_summary_raises file w r e He Hn Hs). now left.
  - rewrite (process_extraction_raises file w e He). now left.
Qed.

End Orchestrator.

(** C3.  When the text extraction gives [None] or the empty string,
    [process_medical_report] returns exactly [{"error": "Unsupported file
    format or no text found."}] and leaves the world as it was: neither
    the summarization nor the analysis has sent a request to the model.
    Every extension other than pdf, png, jpg and jpeg is such a case. *)
Theorem no_text_short_circuit (B : Backend) (file : UploadFile) (w : World) :
  (supported_extension (extension_of file) = false
   \/ exists r, extract_text B (contents file) (extension_of file) = Ok r
                /\ no_text r = true) ->
  process_medical_report B file w
    = (Ok (PyDict [("error", PyStr "Unsupported file format or no text found.")]), w)
  /\ llm_calls (snd (process_medical_report B file w)) = llm_calls w.
Proof.
  intros H.
  assert (Hrun : process_medical_report B file w = (Ok no_text_error, w)).
  { destruct H as [Hu | [r [He Hn]]].
    - apply (process_no_text B file w None); [|reflexivity].
      apply unsupported_extension_no_text; assumption.
    - apply (process_no_text B file w r); assumption. }
  rewrite Hrun. split; reflexivity.
Qed.

Lemma no_text_short_circuit_witness :
  process_medical_report Demo.offline (mkUploadFile "notes.DOCX" "PK") Demo.fresh
    = (Ok (PyDict [("error", PyStr "Unsupported file format or no text found.")]),
       Demo.fresh)
  /\ process_medical_report Demo.offline (mkUploadFile "scan.jpeg" "JFIF") Demo.fresh
     = (Ok (PyDict [("error", PyStr "Unsupported file format or no text found.")]),
        Demo.fresh)
  /\ process_medical_report
       (Demo.backend (Ok [Some " "]) (Ok " ") (Ok "s") (Ok "[]"))
       Demo.pdf_upload Demo.fresh
     = (Ok (PyDict [("error", PyStr "Unsupported file format or no text found.")]),
        Demo.fresh).
Proof.
  split; [|split].
  - apply (no_text_short_circuit Demo.offline (mkUploadFile "notes.DOCX" "PK")
             Demo.fresh).
    left. reflexivity.
  - apply (no_text_short_circuit Demo.offline (mkUploadFile "scan.jpeg" "JFIF")
             Demo.fresh).
    right. exists None. split; reflexivity.
  - apply (no_text_short_circuit
             (Demo.backend (Ok [Some " "]) (Ok " ") (Ok "s") (Ok "[]"))
             Demo.pdf_upload Demo.fresh).
    right. exists (Some EmptyString). split; reflexivity.
Defined.

(** C1, as stated, fails for the third stage: when the analysis fails, the
    run still succeeds.  The result has the keys ["summary"] and
    ["abnormalities"], the error payload sits under the latter, and the
    report is written to the store. *)
Lemma failed_analysis_is_stored :
  let B := Demo.one_page (Ok "Low hemoglobin.") (Raise Demo.connection_error) in
  let run := process_medical_report B Demo.pdf_upload Demo.fresh in
  let report :=
    PyDict [("summary", PyStr "Low hemoglobin.");
            ("abnormalities",
             PyDict [("error", PyStr "LLM analysis failed: Connection error.")])] in
  analysis_fails B Demo.report_text Demo.connection_error
  /\ fst run = Ok report
  /\ ~ only_key "error" report
  /\ latest_report (snd run) = report
  /\ latest_report (snd run) <> latest_report Demo.fresh.
Proof.
  cbv zeta. split; [left; reflexivity|].
  split; [reflexivity|]. split; [discriminate|].
  split; [reflexivity|]. vm_compute. discriminate.
Qed.

(** C1, amended.  When the text extraction gives [None] or the empty
    string, or the summarization raises, [process_medical_report] returns
    an object whose only key is ["error"] and [latest_report] keeps the
    value it had.  When the analysis fails, its error payload is returned
    under ["abnormalities"] next to the summary, and that report is
    stored. *)
Theorem failed_stage_outcome (B : Backend) (file : UploadFile) (w : World)
    (r : option string) :
  extract_text B (contents file) (extension_of file) = Ok r ->
  let run := process_medical_report B file w in
  let docs := split_text B (text_of r) in
  ((no_text r = true \/ exists e, summary_chain_run B docs = Raise e) ->
   (exists msg, fst run = Ok (PyDict [("error", PyStr msg)]))
   /\ (exists v, fst run = Ok v /\ only_key "error" v)
   /\ latest_report (snd run) = latest_report w)
  /\ (forall summary e,
        no_text r = false ->
        summary_chain_run B docs = Ok summary ->
        extract_medical_values (text_of r) <> [] ->
        analysis_fails B (text_of r) e ->
        fst run = Ok (report_of summary (analysis_error e))
        /\ latest_report (snd run) = report_of summary (analysis_error e)).
Proof.
  intros He run docs. subst run docs. split.
  - intros H. destruct (no_text r) eqn:Hn.
    + rewrite (process_no_text B file w r He Hn). cbn [fst snd].
      split; [eexists; reflexivity|]. split; [|reflexivity].
      eexists; split; reflexivity.
    + destruct H as [H | [e Hs]]; [discriminate|].
      rewrite (process_summary_raises B file w r e He Hn Hs). cbn [fst snd].
      split; [eexists; reflexivity|]. split; [|reflexivity].
      eexists; split; reflexivity.
  - intros summary e Hn Hs Hne Hfail.
    rewrite (process_summarized B file w r summary He Hn Hs
               (analysis_error e) _ (detect_failure B _ e _ Hne Hfail)).
    split; reflexivity.
Qed.

Lemma failed_stage_outcome_witness :
  let B := Demo.one_page (Raise "Rate limit reached.") (Raise Demo.connection_error) in
  let B' := Demo.one_page (Ok "Low hemoglobin.") (Raise Demo.connection_error) in
  let stored := mkWorld (report_of "Earlier report." (PyList [])) [] in
  (fst (process_medical_report B Demo.pdf_upload stored)
     = Ok (PyDict [("error", PyStr "Summarization failed: Rate limit reached.")])
   /\ latest_report (snd (process_medical_report B Demo.pdf_upload stored))
      = latest_report stored)
  /\ latest_report (snd (process_medical_report B' Demo.pdf_upload stored))
     = report_of "Low hemoglobin." (analysis_error Demo.connection_error).
Proof.
  cbv zeta.
  pose proof (failed_stage_outcome
                (Demo.one_page (Raise "Rate limit reached.") (Raise Demo.connection_error))
                Demo.pdf_upload
                (mkWorld (report_of "Earlier report." (PyList [])) [])
                (Some Demo.report_text) eq_refl) as [Hfirst _].
  pose proof (failed_stage_outcome
                (Demo.one_page (Ok "Low hemoglobin.") (Raise Demo.connection_error))
                Demo.pdf_upload
                (mkWorld (report_of "Earlier report." (PyList [])) [])
                (Some Demo.report_text) eq_refl) as [_ Hsecond].
  split.
  - destruct (Hfirst (or_intror (ex_intro _ "Rate limit reached." eq_refl)))
      as [_ [_ Hkeep]].
    split; [reflexivity | exact Hkeep].
  - refine (proj2 (Hsecond "Low hemoglobin." Demo.connection_error
                     eq_refl eq_refl _ (or_introl eq_refl))).
    vm_compute. discriminate.
Defined.

(** C7 fails on the code: two stages do not catch what their backend
    raises.  A file named [report.pdf] that pdfplumber cannot open makes
    [extract_text_from_pdf], and with it [process_medical_report], raise
    pdfplumber's exception; a chat question asked while the model is out of
    reach makes [chat_with_ai] raise the client's exception. *)
Lemma raw_exceptions_cross_the_boundary :
  extract_text_from_pdf Demo.offline (contents Demo.pdf_upload)
    = Raise "No /Root object! - Is this really a PDF?"
  /\ process_medical_report Demo.offline Demo.pdf_upload Demo.fresh
     = (Raise "No /Root object! - Is this really a PDF?", Demo.fresh)
  /\ fst (chat_with_ai Demo.offline "Is my hemoglobin low?"
            (mkWorld (report_of "Low hemoglobin." (PyList [])) []))
     = Raise "Connection error.".
Proof. repeat split. Qed.

Section Uncaught.

Variable B : Backend.

(** The PDF stage lets every exception of pdfplumber through. *)
Lemma pdf_exception_propagates (file : UploadFile) (w : World) (e : string) :
  extension_of file = "pdf" ->
  pdf_pages B (contents file) = Raise e ->
  process_medical_report B file w = (Raise e, w).
Proof.
  intros Hext Hpdf. apply process_extraction_raises.
  rewrite Hext. unfold extract_text, extract_text_from_pdf. cbn [String.eqb].
  rewrite Hpdf. reflexivity.
Qed.

(** The chat stage lets every exception of the model through. *)
Lemma chat_exception_propagates (question summary e : string)
    (abnormalities : pyval) (calls : list llm_call) :
  let w := mkWorld (report_of summary abnormalities) calls in
  let context :=
    chat_context (format_value B (PyStr summary))
                 (format_value B abnormalities) question in
  llm_invoke B context = Raise e ->
  fst (chat_with_ai B question w) = Raise e.
Proof.
  intros w context Hr. unfold chat_with_ai, get_latest_report, Eff.bind,
    Eff.read_report, Eff.lift, Eff.request.
  cbn -[chat_context format_value llm_invoke]. fold context. rewrite Hr.
  reflexivity.
Qed.

(** The stages that do catch: the OCR, the summarization and the analysis
    turn every exception into [None] or an error payload. *)
Lemma ocr_exception_caught (image_bytes e : string) :
  image_to_string B image_bytes = Raise e ->
  extract_text_from_image B image_bytes = None.
Proof. intros H. unfold extract_text_from_image. rewrite H. reflexivity. Qed.

End Uncaught.

(** C10.  A chat question asked while the report store is empty gets
    exactly [{"error": "No medical report found. Please upload one
    first."}], and the world is as before: no request was sent to the
    model. *)
Theorem chat_without_report (B : Backend) (question : string) (w : World) :
  latest_report w = PyNone ->
  chat_with_ai B question w
    = (Ok (PyDict [("error",
             PyStr "No medical report found. Please upload one first.")]), w)
  /\ llm_calls (snd (chat_with_ai B question w)) = llm_calls w.
Proof.
  intros Hnone.
  assert (Hrun : chat_with_ai B question w = (Ok no_report_error, w)).
  { unfold chat_with_ai, get_latest_report, Eff.bind, Eff.read_report.
    rewrite Hnone. reflexivity. }
  rewrite Hrun. split; reflexivity.
Qed.

Lemma chat_without_report_witness :
  chat_with_ai Demo.offline "Is my hemoglobin low?" Demo.fresh
    = (Ok (PyDict [("error",
             PyStr "No medical report found. Please upload one first.")]),
       Demo.fresh).
Proof.
  apply (chat_without_report Demo.offline "Is my hemoglobin low?" Demo.fresh).
  reflexivity.
Defined.


(* ================================================================= *)
(** * Further facts about strings *)

Section MoreStrings.

Lemma lstrip_blank (s : string) : blank s = true -> lstrip s = EmptyString.
Proof.
  unfold blank. induction s as [|c s IH]; cbn; [reflexivity|].
  intros H. apply andb_prop in H as [Hc Hs]. rewrite Hc. auto.
Qed.

Lemma strip_blank (s : string) : blank s = true -> strip s = EmptyString.
Proof. intros H. unfold strip. now rewrite lstrip_blank. Qed.

Lemma blank_append (a b : string) :
  blank a = true -> blank b = true -> blank (a ++ b) = true.
Proof.
  unfold blank. intros Ha Hb. rewrite chars_of_append, forallb_app.
  now rewrite Ha, Hb.
Qed.

Lemma pages_text_blank (texts : list string) :
  forallb blank texts = true -> blank (pages_text texts) = true.
Proof.
  induction texts as [|t texts IH]; cbn; [reflexivity|].
  intros H. apply andb_prop in H as [Ht Hr].
  apply blank_append; [exact Ht|]. unfold blank in *. cbn. auto.
Qed.

Lemma rstrip_idempotent (s : string) : rstrip (rstrip s) = rstrip s.
Proof.
  induction s as [|c s IH]; [reflexivity|].
  cbn [rstrip]. destruct (rstrip s) as [|d r] eqn:Hr.
  - destruct (is_space c) eqn:Hc; cbn; [reflexivity | now rewrite Hc].
  - rewrite rstrip_not_empty; rewrite IH; [reflexivity | discriminate].
Qed.

(** What is left of a string trimmed on the left starts with a character
    that is not white space. *)
Lemma lstrip_head (s : string) :
  lstrip s = EmptyString
  \/ exists c r, lstrip s = String c r /\ is_space c = false.
Proof.
  induction s as [|c s IH]; cbn; [now left|].
  destruct (is_space c) eqn:Hc; [exact IH|]. right. eauto.
Qed.

Lemma rstrip_head (c : ascii) (r : string) :
  is_space c = false -> exists r', rstrip (String c r) = String c r'.
Proof.
  intros Hc. cbn. destruct (rstrip r); [rewrite Hc|]; eauto.
Qed.

(** Trimming twice is trimming once. *)
Lemma strip_idempotent (s : string) : strip (strip s) = strip s.
Proof.
  unfold strip at 1. assert (Hl : lstrip (strip s) = strip s).
  { unfold strip. destruct (lstrip_head s) as [-> | [c [r [-> Hc]]]];
      [reflexivity|].
    destruct (rstrip_head c r Hc) as [r' ->]. cbn. now rewrite Hc. }
  rewrite Hl. unfold strip. apply rstrip_idempotent.
Qed.

(** Trimming only removes characters. *)
Lemma lstrip_forallb (p : ascii -> bool) (s : string) :
  forallb p (list_ascii_of_string s) = true ->
  forallb p (list_ascii_of_string (lstrip s)) = true.
Proof.
  induction s as [|c s IH]; cbn; [auto|]. intros H.
  destruct (is_space c); [apply andb_prop in H as [_ H]; auto | exact H].
Qed.

Lemma rstrip_forallb (p : ascii -> bool) (s : string) :
  forallb p (list_ascii_of_string s) = true ->
  forallb p (list_ascii_of_string (rstrip s)) = true.
Proof.
  induction s as [|c s IH]; cbn; [auto|]. intros H.
  apply andb_prop in H as [Hc Hs]. specialize (IH Hs).
  destruct (rstrip s) as [|d r].
  - destruct (is_space c); cbn; [reflexivity | now rewrite Hc].
  - cbn in *. now rewrite Hc, IH.
Qed.

Lemma strip_forallb (p : ascii -> bool) (s : string) :
  forallb p (list_ascii_of_string s) = true ->
  forallb p (list_ascii_of_string (strip s)) = true.
Proof. intros H. unfold strip. now apply rstrip_forallb, lstrip_forallb. Qed.

Lemma lower_char_dot (c : ascii) :
  Ascii.eqb "." (lower_char c) = Ascii.eqb "." c
  /\ Ascii.eqb (lower_char c) "." = Ascii.eqb c ".".
Proof. destruct c as [[] [] [] [] [] [] [] []]; vm_compute; split; reflexivity. Qed.

Lemma lower_keeps_dots (s : string) :
  existsb (Ascii.eqb ".") (list_ascii_of_string (lower s))
  = existsb (Ascii.eqb ".") (list_ascii_of_string s).
Proof.
  induction s as [|c s IH]; [reflexivity|].
  cbn [lower list_ascii_of_string existsb].
  now rewrite IH, (proj1 (lower_char_dot c)).
Qed.

(** Lowering the case and cutting at the last dot commute. *)
Lemma last_segment_lower (s : string) :
  last_segment (lower s) = lower (last_segment s).
Proof.
  induction s as [|c s IH]; cbn [lower last_segment]; [reflexivity|].
  rewrite lower_keeps_dots, (proj2 (lower_char_dot c)).
  destruct (existsb _ _); [exact IH|].
  destruct (Ascii.eqb c "."); reflexivity.
Qed.

End MoreStrings.

(* ================================================================= *)
(** * Further facts about the [re] engine *)

Section MoreMatching.
Import Re ReLang.

(** A successful match, groups or not, has read a word of the language
    and handed the rest to the continuation. *)
Lemma rmatch_reads_a_word r : forall s cs k res,
  rmatch r s cs k = Some res ->
  exists w s' cs', s = w ++ s' /\ lang r w /\ k s' cs' = Some res.
Proof.
  induction r as [|c|p|p|r IH|r1 IH1 r2 IH2|r1 IH1 r2 IH2|n r IH];
    intros s cs k res H; cbn in H.
  - exists EmptyString, s, cs. cbn. auto.
  - destruct s as [|c' s]; [discriminate|].
    destruct (Ascii.eqb c' c) eqn:Hc; [|discriminate].
    apply Ascii.eqb_eq in Hc as ->.
    exists (String c EmptyString), s, cs. cbn. auto.
  - apply star_sound in H as [w [s' [-> [Hw Hk]]]].
    exists w, s', cs. cbn. auto.
  - destruct s as [|c' s]; [discriminate|].
    destruct (p c') eqn:Hc; [|discriminate].
    apply star_sound in H as [w [s' [-> [Hw Hk]]]].
    exists (String c' w), s', cs. cbn. rewrite Hc, Hw.
    repeat split; [discriminate | exact Hk].
  - destruct (rmatch r s cs k) as [res'|] eqn:Hr.
    + destruct (IH _ _ _ _ Hr) as [w [s' [cs' [-> [Hw Hk]]]]].
      exists w, s', cs'. cbn. repeat split; [now right | congruence].
    + exists EmptyString, s, cs. cbn. auto.
  - destruct (IH1 _ _ _ _ H) as [w1 [s1 [cs1 [-> [Hw1 H2]]]]].
    destruct (IH2 _ _ _ _ H2) as [w2 [s2 [cs2 [-> [Hw2 Hk]]]]].
    exists (w1 ++ w2), s2, cs2. rewrite append_associative.
    repeat split; [|exact Hk]. cbn. exists w1, w2. auto.
  - destruct (rmatch r1 s cs k) as [res'|] eqn:Hr.
    + destruct (IH1 _ _ _ _ Hr) as [w [s' [cs' [-> [Hw Hk]]]]].
      exists w, s', cs'. cbn. repeat split; [now left | congruence].
    + destruct (IH2 _ _ _ _ H) as [w [s' [cs' [-> [Hw Hk]]]]].
      exists w, s', cs'. cbn. repeat split; [now right | exact Hk].
  - destruct (IH _ _ _ _ H) as [w [s' [cs' [-> [Hw Hk]]]]].
    exists w, s', ((n, consumed (w ++ s') s') :: cs'). auto.
Qed.

Lemma match_here_reads_a_word r s rest cs :
  match_here r s = Some (rest, cs) -> exists w, s = w ++ rest /\ lang r w.
Proof.
  intros H. apply rmatch_reads_a_word in H as [w [s' [cs' [-> [Hw Hk]]]]].
  injection Hk as <- _. eauto.
Qed.

(** A repetition falls back on its continuation. *)
Lemma star_fallback p s k : k s <> None -> star p s k <> None.
Proof.
  destruct s as [|c s]; cbn; [auto|]. intros H.
  destruct (p c); [|exact H]. destruct (star p s k); [discriminate | exact H].
Qed.

Lemma star_complete p w s k :
  forallb p (list_ascii_of_string w) = true ->
  k s <> None -> star p (w ++ s) k <> None.
Proof.
  intros Hw Hk. induction w as [|c w IH]; cbn in *.
  - now apply star_fallback.
  - apply andb_prop in Hw as [Hc Hw]. rewrite Hc.
    specialize (IH Hw). destruct (star p (w ++ s) k); [discriminate | contradiction].
Qed.

(** Backtracking finds a match whenever the subject starts with a word of
    the language and the continuation accepts what follows it. *)
Lemma rmatch_complete r : forall w s cs k,
  lang r w -> (forall cs', k s cs' <> None) -> rmatch r (w ++ s) cs k <> None.
Proof.
  induction r as [|c|p|p|r IH|r1 IH1 r2 IH2|r1 IH1 r2 IH2|n r IH];
    intros w s cs k Hw Hk; cbn in Hw.
  - subst w. cbn. apply Hk.
  - subst w. cbn. rewrite Ascii.eqb_refl. apply Hk.
  - cbn. apply star_complete; auto.
  - destruct Hw as [Hne Hw]. destruct w as [|c w]; [congruence|].
    cbn in *. apply andb_prop in Hw as [Hc Hw]. rewrite Hc.
    apply star_complete; auto.
  - cbn. destruct Hw as [->|Hw].
    + cbn. destruct (rmatch r s cs k); [discriminate | apply Hk].
    + specialize (IH w s cs k Hw Hk).
      destruct (rmatch r (w ++ s) cs k); [discriminate | contradiction].
  - destruct Hw as [w1 [w2 [-> [H1 H2]]]]. cbn. rewrite append_associative.
    apply IH1; [exact H1|]. intros cs'. now apply IH2.
  - cbn. destruct Hw as [Hw|Hw].
    + specialize (IH1 w s cs k Hw Hk).
      destruct (rmatch r1 (w ++ s) cs k); [discriminate | contradiction].
    + destruct (rmatch r1 (w ++ s) cs k); [discriminate | now apply IH2].
  - cbn. apply IH; [exact Hw|]. intros cs'. apply Hk.
Qed.

Lemma match_here_complete r w s : lang r w -> match_here r (w ++ s) <> None.
Proof. intros H. apply rmatch_complete; [exact H | discriminate]. Qed.

(** The scan reports a match for the place it was found at. *)
Lemma scan_sound_at r cs : forall s skip,
  In cs (scan r s skip) ->
  exists before s0 rest, s = before ++ s0 /\ match_here r s0 = Some (rest, cs).
Proof.
  induction s as [|c s IH]; intros skip H.
  - destruct skip as [|n]; cbn in H; [|destruct H].
    destruct (match_here r EmptyString) as [[rest cs']|] eqn:Hm; [|destruct H].
    destruct H as [<-|[]]. exists EmptyString, EmptyString, rest. auto.
  - assert (Htail : forall n, In cs (scan r s n) ->
              exists before s0 rest,
                String c s = before ++ s0 /\ match_here r s0 = Some (rest, cs)).
    { intros n Hn. destruct (IH n Hn) as [before [s0 [rest [-> Hm]]]].
      exists (String c before), s0, rest. auto. }
    destruct skip as [|n]; cbn [scan] in H; [|eauto].
    destruct (match_here r (String c s)) as [[rest cs']|] eqn:Hm; [|eauto].
    destruct H as [<-|H]; [|eauto].
    exists EmptyString, (String c s), rest. auto.
Qed.

(** The scan misses no place where the pattern matches. *)
Lemma scan_complete r : forall before s0,
  match_here r s0 <> None -> scan r (before ++ s0) 0 <> [].
Proof.
  induction before as [|c before IH]; intros s0 H.
  - cbn [append]. destruct s0 as [|c s0]; cbn [scan];
      destruct (match_here r _) as [[rest cs]|]; try discriminate; contradiction.
  - cbn [append scan].
    destruct (match_here r (String c (before ++ s0))) as [[rest cs]|];
      [discriminate | now apply IH].
Qed.

(** When every match reads three characters or more, there are at most a
    third as many matches as characters. *)
Lemma scan_bound r :
  (forall s0 rest cs,
     match_here r s0 = Some (rest, cs) ->
     String.length rest + 3 <= String.length s0) ->
  forall s skip, 3 * List.length (scan r s skip) + skip <= String.length s + skip
                 /\ 3 * List.length (scan r s skip) <= String.length s - skip.
Proof.
  intros Hthree. induction s as [|c s IH]; intros skip.
  - destruct skip as [|n]; cbn [scan]; [|cbn; lia].
    destruct (match_here r EmptyString) as [[rest cs]|] eqn:Hm; [|cbn; lia].
    apply Hthree in Hm. cbn in Hm. lia.
  - destruct skip as [|n]; cbn [scan].
    + destruct (match_here r (String c s)) as [[rest cs]|] eqn:Hm.
      * apply Hthree in Hm. cbn [String.length] in *.
        destruct (IH (S (String.length s) - String.length rest - 1)) as [_ H].
        cbn [List.length]. lia.
      * destruct (IH 0) as [_ H]. cbn [String.length]. lia.
    + destruct (IH n) as [_ H]. cbn [String.length]. lia.
Qed.

End MoreMatching.

(* ================================================================= *)
(** * Further properties of the value extractor *)

Section MoreExtractor.
Import Re ReLang.

(** A word of the pattern: a label, a separator, a number, and the rest
    (white space and unit). *)
Lemma medical_word_parts w :
  lang medical_pattern w ->
  exists label sep number tail,
    w = label ++ sep ++ number ++ tail
    /\ lang (Plus label_char) label
    /\ lang (Plus separator_char) sep
    /\ lang (Plus number_char) number.
Proof.
  unfold medical_pattern. cbn [lang].
  intros [label [w1 [-> [Hl [sep [w2 [-> [Hs [number [tail [-> [Hn _]]]]]]]]]]]].
  exists label, sep, number, tail. auto.
Qed.

Lemma plus_word_length p w : lang (Plus p) w -> 1 <= String.length w.
Proof. intros [Hne _]. destruct w; [congruence | cbn; lia]. Qed.

Lemma medical_word_length w : lang medical_pattern w -> 3 <= String.length w.
Proof.
  intros H. apply medical_word_parts in H
    as [label [sep [number [tail [-> [Hl [Hs Hn]]]]]]].
  apply plus_word_length in Hl, Hs, Hn. rewrite !length_append. lia.
Qed.

Lemma medical_match_reads_three s0 rest cs :
  match_here medical_pattern s0 = Some (rest, cs) ->
  String.length rest + 3 <= String.length s0.
Proof.
  intros H. apply match_here_reads_a_word in H as [w [-> Hw]].
  apply medical_word_length in Hw. rewrite length_append. lia.
Qed.

Lemma filter_all {A} (l : list A) : filter (fun _ => true) l = l.
Proof. induction l as [|x l IH]; cbn; [reflexivity | now rewrite IH]. Qed.

Lemma filter_twice {A} (f g : A -> bool) (l : list A) :
  filter f (filter g l) = filter (fun x => g x && f x) l.
Proof.
  induction l as [|x l IH]; cbn; [reflexivity|].
  destruct (g x); cbn; [destruct (f x)|]; now rewrite IH.
Qed.

Lemma dict_keys_after_set {V} (k : string) (v : V) (d : Dict.dict V) :
  Dict.keys (Dict.set k v d)
  = if known (Dict.keys d) k then Dict.keys d else (Dict.keys d ++ [k])%list.
Proof.
  unfold known, Dict.keys. induction d as [|[k0 v0] d IH]; cbn; [reflexivity|].
  destruct (String.eqb k0 k); cbn; [reflexivity|].
  rewrite IH. now destruct (existsb _ (map fst d)).
Qed.

Lemma dict_keys_after_fold ms : forall d,
  Dict.keys (fold_left store_match ms d)
  = (Dict.keys d
     ++ filter (fun l => negb (known (Dict.keys d) l))
               (first_occurrences (map match_label ms)))%list.
Proof.
  induction ms as [|m ms IH]; intros d; cbn [fold_left map first_occurrences].
  - cbn. now rewrite app_nil_r.
  - rewrite IH. unfold store_match. rewrite dict_keys_after_set.
    set (k := match_label m). set (kd := Dict.keys d).
    set (F := first_occurrences (map match_label ms)).
    cbn [filter]. destruct (known kd k) eqn:Hk; cbn [negb].
    + f_equal. rewrite filter_twice. apply filter_ext. intros l.
      destruct (String.eqb_spec l k) as [->|]; cbn; [now rewrite Hk | reflexivity].
    + rewrite <- app_assoc. cbn [app]. do 2 f_equal.
      rewrite filter_twice. apply filter_ext. intros l.
      unfold known. rewrite existsb_app. cbn [existsb].
      rewrite orb_false_r, negb_orb, (String.eqb_sym k l). apply andb_comm.
Qed.

Lemma dict_length_after_fold ms : forall d,
  List.length (fold_left store_match ms d) <= List.length d + List.length ms.
Proof.
  assert (Hset : forall k v (d : Dict.dict string),
             List.length (Dict.set k v d) <= S (List.length d)).
  { intros k v d. induction d as [|[k0 v0] d IH]; cbn; [lia|].
    destruct (String.eqb k0 k); cbn; lia. }
  induction ms as [|m ms IH]; intros d; cbn [fold_left List.length]; [lia|].
  specialize (IH (store_match d m)).
  specialize (Hset (match_label m) (match_value m) d). unfold store_match in *.
  lia.
Qed.

Lemma chars_all_none (p q : ascii -> bool) (l : list ascii) :
  (forall c, p c = true -> q c = false) ->
  forallb p l = true -> existsb q l = false.
Proof.
  intros Hpq. induction l as [|c l IH]; cbn; [reflexivity|].
  intros H. apply andb_prop in H as [Hc Hl]. now rewrite (Hpq c Hc), IH.
Qed.

Lemma label_char_no_colon c : label_char c = true -> Ascii.eqb ":" c = false.
Proof. destruct c as [[] [] [] [] [] [] [] []]; vm_compute; congruence. Qed.

(** Values come from a word of the pattern somewhere in the text ... *)
Lemma values_need_a_word (text : string) :
  extract_medical_values text <> [] -> occurs medical_pattern text.
Proof.
  rewrite extract_empty_iff. unfold findall3, occurs. intros H.
  destruct (scan medical_pattern text 0) as [|cs l] eqn:Hs;
    [now contradiction H|].
  assert (Hin : In cs (scan medical_pattern text 0)) by (rewrite Hs; now left).
  apply scan_sound_at in Hin as [before [s0 [rest [-> Hm]]]].
  apply match_here_reads_a_word in Hm as [w [-> Hw]]. eauto.
Qed.

(** ... and every such word gives values. *)
Lemma word_gives_values (text : string) :
  occurs medical_pattern text -> extract_medical_values text <> [].
Proof.
  rewrite extract_empty_iff. unfold findall3.
  intros [before [w [after [-> Hw]]]] H.
  apply map_eq_nil in H. revert H. apply scan_complete.
  now apply match_here_complete.
Qed.

End MoreExtractor.

(** X1.  The keys of the map are the trimmed labels of the matches in the
    order in which each label first occurs, every label once.  In the text
    with the lines [B: 1 g/dL], [ A : 2 %] and [B: 3] the labels are
    captured with the line feeds and spaces around them; the keys are [B],
    then [A]. *)
Theorem keys_follow_first_occurrence :
  (forall text,
     Dict.keys (extract_medical_values text)
     = first_occurrences
         (map (fun m => strip (fst (fst m))) (Re.findall3 medical_pattern text)))
  /\ map (fun m => fst (fst m))
         (Re.findall3 medical_pattern
            ("B: 1 g/dL" ++ String LF " A : 2 %" ++ String LF "B: 3"))
     = ["B"; String LF " A "; String LF "B"]
  /\ Dict.keys (extract_medical_values
                  ("B: 1 g/dL" ++ String LF " A : 2 %" ++ String LF "B: 3"))
     = ["B"; "A"].
Proof.
  split; [|split; vm_compute; reflexivity].
  intros text. unfold extract_medical_values. rewrite dict_keys_after_fold.
  cbn [Dict.keys map filter app]. rewrite filter_all. f_equal.
  apply map_ext. intros [[parameter value] unit]. reflexivity.
Qed.

(** X2.  Every key of the map is trimmed and made of label characters
    only (word characters, white space, parentheses, percent and minus),
    so it holds no colon; every value is trimmed and not empty. *)
Theorem entries_are_trimmed (text label value : string) :
  In (label, value) (extract_medical_values text) ->
  strip label = label
  /\ forallb label_char (list_ascii_of_string label) = true
  /\ existsb (Ascii.eqb ":") (list_ascii_of_string label) = false
  /\ strip value = value
  /\ value <> EmptyString.
Proof.
  intros H. unfold extract_medical_values in H.
  apply fold_store_in in H as [[] | [m [Hin [-> ->]]]].
  unfold Re.findall3 in Hin. apply in_map_iff in Hin as [cs [<- Hcs]].
  apply scan_sound in Hcs as [s0 [rest Hmatch]].
  apply medical_match_shape in Hmatch
    as [parameter [number [unit [Hl [Hn [Hu [-> _]]]]]]].
  assert (Hchars : forallb label_char
                     (list_ascii_of_string (match_label (parameter, number, unit)))
                   = true)
    by (apply strip_forallb; exact (proj2 Hl)).
  split; [apply strip_idempotent|]. split; [exact Hchars|].
  split; [exact (chars_all_none _ _ _ label_char_no_colon Hchars)|].
  split; [apply strip_idempotent|].
  rewrite (match_value_format _ _ _ Hn Hu). unfold number_and_unit.
  destruct Hn as [Hne _]. destruct number; [congruence|].
  destruct (is_empty unit); discriminate.
Qed.

Lemma entries_are_trimmed_witness :
  strip "HbA1c (%) -" = "HbA1c (%) -"
  /\ forallb label_char (list_ascii_of_string "HbA1c (%) -") = true
  /\ existsb (Ascii.eqb ":") (list_ascii_of_string "HbA1c (%) -") = false
  /\ strip "5.6 %" = "5.6 %"
  /\ "5.6 %" <> EmptyString.
Proof.
  apply (entries_are_trimmed ("  HbA1c (%) - 5.6 %" ++ String LF "RBC: 4.5")
           "HbA1c (%) -" "5.6 %").
  vm_compute. left. reflexivity.
Defined.

(** X3.  The map is not empty exactly when some part of the text is a word
    of the pattern: a run of label characters, a run of separators, a run
    of digits and dots, then optional white space and an optional unit. *)
Theorem values_iff_pattern_occurs (text : string) :
  extract_medical_values text <> [] <-> occurs medical_pattern text.
Proof.
  split; [apply values_need_a_word | apply word_gives_values].
Qed.

(** X4.  There are at most a third as many entries as the text has
    characters: every match reads a label, a separator and a number. *)
Theorem entries_bounded_by_length (text : string) :
  3 * List.length (extract_medical_values text) <= String.length text.
Proof.
  unfold extract_medical_values.
  pose proof (dict_length_after_fold (Re.findall3 medical_pattern text) []) as Hd.
  unfold Re.findall3 in *. rewrite length_map in Hd.
  destruct (scan_bound medical_pattern medical_match_reads_three text 0)
    as [_ Hs].
  cbn [List.length] in Hd. lia.
Qed.

(* ================================================================= *)
(** * Further properties of the pipeline and the chat *)

Section MorePipeline.

Variable B : Backend.

Lemma detect_requests (text : string) (w : World) :
  llm_calls (snd (detect_abnormalities_llm B text w))
  = (llm_calls w ++ analysis_requests text)%list.
Proof.
  unfold analysis_requests.
  destruct (extract_medical_values text) as [|kv d] eqn:Hd.
  - rewrite detect_empty by assumption. cbn. now rewrite app_nil_r.
  - rewrite detect_run by congruence. rewrite Hd. reflexivity.
Qed.

(** The analyzer always comes back with a value. *)
Lemma detect_value (text : string) (w : World) :
  exists v, detect_abnormalities_llm B text w
            = (Ok v, snd (detect_abnormalities_llm B text w)).
Proof.
  destruct (detect_returns B text w) as [v Hv]. exists v.
  destruct (detect_abnormalities_llm B text w) as [res w']. cbn in *.
  now subst res.
Qed.

Lemma some_text (text : string) :
  text <> EmptyString -> no_text (Some text) = false.
Proof. destruct text; [congruence | reflexivity]. Qed.

(** Only the PDF branch of the dispatch can raise. *)
Lemma extract_text_raises (file ext e : string) :
  extract_text B file ext = Raise e ->
  ext = "pdf" /\ extract_text_from_pdf B file = Raise e.
Proof.
  unfold extract_text. destruct (String.eqb_spec ext "pdf") as [->|_].
  - destruct (extract_text_from_pdf B file); [discriminate|].
    intros [= ->]. auto.
  - destruct (existsb _ _); discriminate.
Qed.


(** What the chat answers depends on the store only. *)
Lemma chat_result_store (question : string) (w1 w2 : World) :
  latest_report w1 = latest_report w2 ->
  fst (chat_with_ai B question w1) = fst (chat_with_ai B question w2).
Proof.
  destruct w1 as [r1 c1], w2 as [r2 c2]. cbn [latest_report]. intros <-.
  unfold chat_with_ai, get_latest_report, Eff.bind, Eff.read_report, Eff.lift,
    Eff.request, Eff.ret. cbn [latest_report].
  destruct (negb (truthy r1)); [reflexivity|].
  destruct (subscript r1 "summary"); [|reflexivity].
  destruct (subscript r1 "abnormalities"); [|reflexivity].
  destruct (llm_invoke B _); reflexivity.
Qed.

Lemma add_pages_with_none pages : forall text,
  In None pages ->
  add_pages text pages
  = Raise "unsupported operand type(s) for +: 'NoneType' and 'str'".
Proof.
  induction pages as [|page pages IH]; intros text H; [destruct H|].
  destruct page as [t|]; [|reflexivity].
  destruct H as [H|H]; [discriminate|]. cbn. now apply IH.
Qed.

Lemma upload_is_the_run (file : UploadFile) (w : World) :
  upload_report B file w = process_medical_report B file w.
Proof.
  unfold upload_report, Eff.bind, Eff.ret.
  destruct (process_medical_report B file w) as [[v|e] w']; reflexivity.
Qed.

End MorePipeline.

(** X5.  A text without a digit and without a dot has no values: the map
    is empty, and the analyzer answers with its message without a request
    to the model. *)
Theorem text_without_numbers (B : Backend) (text : string) (w : World) :
  forallb (fun c => negb (number_char c)) (list_ascii_of_string text) = true ->
  extract_medical_values text = []
  /\ detect_abnormalities_llm B text w = (Ok no_values_message, w).
Proof.
  intros Hnone.
  assert (He : extract_medical_values text = []).
  { destruct (extract_medical_values text) as [|kv d] eqn:Hd; [reflexivity|].
    exfalso.
    assert (Hne : extract_medical_values text <> []) by congruence.
    apply values_need_a_word in Hne as [before [word [after [-> Hw]]]].
    apply medical_word_parts in Hw
      as [label [sep [number [tail [-> [_ [_ Hn]]]]]]].
    rewrite chars_of_append, forallb_app in Hnone.
    apply andb_prop in Hnone as [_ Hnone].
    rewrite chars_of_append, forallb_app in Hnone.
    apply andb_prop in Hnone as [Hnone _].
    rewrite chars_of_append, forallb_app in Hnone.
    apply andb_prop in Hnone as [_ Hnone].
    rewrite chars_of_append, forallb_app in Hnone.
    apply andb_prop in Hnone as [_ Hnone].
    rewrite chars_of_append, forallb_app in Hnone.
    apply andb_prop in Hnone as [Hnone _].
    destruct Hn as [Hne Hchars]. destruct number as [|c number]; [congruence|].
    cbn in Hchars, Hnone. apply andb_prop in Hchars as [Hc _].
    rewrite Hc in Hnone. discriminate Hnone. }
  split; [exact He | now apply detect_empty].
Qed.

Lemma text_without_numbers_witness :
  extract_medical_values "Blood pressure: normal - no findings (see notes)" = []
  /\ detect_abnormalities_llm Demo.offline
       "Blood pressure: normal - no findings (see notes)" Demo.fresh
     = (Ok no_values_message, Demo.fresh).
Proof.
  apply (text_without_numbers Demo.offline
           "Blood pressure: normal - no findings (see notes)" Demo.fresh).
  vm_compute. reflexivity.
Defined.

(** X6.  A run whose extraction gives a text and whose summarization
    returns ends with [{"summary": ..., "abnormalities": ...}], the
    abnormalities being what the analyzer gives for the whole text, and
    [get_latest_report] then returns that very report, whatever the store
    held before. *)
Theorem successful_run (B : Backend) (file : UploadFile) (w : World)
    (text summary : string) :
  extract_text B (contents file) (extension_of file) = Ok (Some text) ->
  text <> EmptyString ->
  summary_chain_run B (split_text B text) = Ok summary ->
  let run := process_medical_report B file w in
  exists abnormalities,
    fst (detect_abnormalities_llm B text (after_summary (split_text B text) w))
      = Ok abnormalities
    /\ fst run = Ok (report_of summary abnormalities)
    /\ get_latest_report (snd run)
       = (Ok (report_of summary abnormalities), snd run).
Proof.
  intros He Hne Hs run. subst run.
  destruct (detect_value B text (after_summary (split_text B text) w))
    as [v Hv].
  exists v. rewrite Hv at 1. split; [reflexivity|].
  rewrite (process_summarized B file w (Some text) summary He
             (some_text text Hne) Hs v _ Hv).
  split; reflexivity.
Qed.

Lemma successful_run_witness :
  exists abnormalities,
    fst (detect_abnormalities_llm (Demo.one_page (Ok "Low hemoglobin.") (Ok "[]"))
           Demo.report_text
           (after_summary [Demo.report_text]
              (mkWorld (report_of "Earlier report." (PyList [])) [])))
      = Ok abnormalities
    /\ fst (process_medical_report
              (Demo.one_page (Ok "Low hemoglobin.") (Ok "[]")) Demo.pdf_upload
              (mkWorld (report_of "Earlier report." (PyList [])) []))
       = Ok (report_of "Low hemoglobin." abnormalities)
    /\ get_latest_report
         (snd (process_medical_report
                 (Demo.one_page (Ok "Low hemoglobin.") (Ok "[]")) Demo.pdf_upload
                 (mkWorld (report_of "Earlier report." (PyList [])) [])))
       = (Ok (report_of "Low hemoglobin." abnormalities),
          snd (process_medical_report
                 (Demo.one_page (Ok "Low hemoglobin.") (Ok "[]")) Demo.pdf_upload
                 (mkWorld (report_of "Earlier report." (PyList [])) []))).
Proof.
  apply (successful_run (Demo.one_page (Ok "Low hemoglobin.") (Ok "[]"))
           Demo.pdf_upload (mkWorld (report_of "Earlier report." (PyList [])) [])
           Demo.report_text "Low hemoglobin.").
  - reflexivity.
  - discriminate.
  - reflexivity.
Defined.

(** X7.  The requests of a run: none when the extraction raises or gives
    no text; otherwise the summarization first, and after it, only when it
    returned and the text has values, the one request of the analyzer. *)
Theorem requests_of_a_run (B : Backend) (file : UploadFile) (w : World) :
  llm_calls (snd (process_medical_report B file w))
  = (llm_calls w
     ++ match extract_text B (contents file) (extension_of file) with
        | Ok r =>
            if no_text r then []
            else
              let docs := split_text B (text_of r) in
              SummarizeChain docs
                :: match summary_chain_run B docs with
                   | Ok _ => analysis_requests (text_of r)
                   | Raise _ => []
                   end
        | Raise _ => []
        end)%list.
Proof.
  destruct (extract_text B (contents file) (extension_of file)) as [r|e] eqn:He.
  - destruct (no_text r) eqn:Hn.
    + rewrite (process_no_text B file w r He Hn). cbn. now rewrite app_nil_r.
    + cbv zeta.
      destruct (summary_chain_run B (split_text B (text_of r)))
        as [summary|e] eqn:Hs.
      * destruct (detect_value B (text_of r)
                    (after_summary (split_text B (text_of r)) w)) as [v Hv].
        rewrite (process_summarized B file w r summary He Hn Hs v _ Hv).
        cbn [snd llm_calls]. rewrite detect_requests. cbn [after_summary llm_calls].
        rewrite <- app_assoc. reflexivity.
      * rewrite (process_summary_raises B file w r e He Hn Hs). reflexivity.
  - rewrite (process_extraction_raises B file w e He). cbn.
    now rewrite app_nil_r.
Qed.

(** X8.  [process_medical_report] raises only for a file with the
    extension pdf, and then it raises what [extract_text_from_pdf] raised
    and leaves the world as it was: the OCR, the summarization and the
    analysis never make it raise. *)
Theorem run_raises_only_from_pdf (B : Backend) (file : UploadFile) (w : World)
    (e : string) :
  fst (process_medical_report B file w) = Raise e ->
  extension_of file = "pdf"
  /\ extract_text_from_pdf B (contents file) = Raise e
  /\ snd (process_medical_report B file w) = w.
Proof.
  destruct (extract_text B (contents file) (extension_of file)) as [r|e'] eqn:He.
  - destruct (no_text r) eqn:Hn.
    + rewrite (process_no_text B file w r He Hn). discriminate.
    + destruct (summary_chain_run B (split_text B (text_of r)))
        as [summary|e''] eqn:Hs.
      * destruct (detect_value B (text_of r)
                    (after_summary (split_text B (text_of r)) w)) as [v Hv].
        rewrite (process_summarized B file w r summary He Hn Hs v _ Hv).
        discriminate.
      * rewrite (process_summary_raises B file w r e'' He Hn Hs). discriminate.
  - rewrite (process_extraction_raises B file w e' He). cbn. intros [= ->].
    apply extract_text_raises in He as [Hext Hpdf]. auto.
Qed.

Lemma run_raises_only_from_pdf_witness :
  extension_of Demo.pdf_upload = "pdf"
  /\ extract_text_from_pdf Demo.offline (contents Demo.pdf_upload)
     = Raise "No /Root object! - Is this really a PDF?"
  /\ snd (process_medical_report Demo.offline Demo.pdf_upload Demo.fresh)
     = Demo.fresh.
Proof.
  apply (run_raises_only_from_pdf Demo.offline Demo.pdf_upload Demo.fresh).
  reflexivity.
Defined.

(** X9.  The chat never writes the store, whatever it answers, and sends
    at most one request to the model. *)
Theorem chat_never_writes (B : Backend) (question : string) (w : World) :
  latest_report (snd (chat_with_ai B question w)) = latest_report w
  /\ (llm_calls (snd (chat_with_ai B question w)) = llm_calls w
      \/ exists context,
           llm_calls (snd (chat_with_ai B question w))
           = (llm_calls w ++ [Invoke context])%list).
Proof.
  unfold chat_with_ai, get_latest_report, Eff.bind, Eff.read_report, Eff.lift,
    Eff.request, Eff.ret.
  destruct (negb (truthy (latest_report w))); [cbn; auto|].
  destruct (subscript (latest_report w) "summary"); [|cbn; auto].
  destruct (subscript (latest_report w) "abnormalities"); [|cbn; auto].
  destruct (llm_invoke B _); cbn [snd latest_report llm_calls]; eauto.
Qed.



(** X11.  An upload that ends with an object whose only entry is
    ["error"] leaves the store as it was, so every chat question is
    answered as it would have been without that upload. *)
Theorem chat_after_failed_upload (B : Backend) (file : UploadFile) (w : World)
    (question msg : string) :
  fst (upload_report B file w) = Ok (PyDict [("error", PyStr msg)]) ->
  latest_report (snd (upload_report B file w)) = latest_report w
  /\ fst (chat_with_ai B question (snd (upload_report B file w)))
     = fst (chat_with_ai B question w).
Proof.
  rewrite upload_is_the_run. intros Herr.
  assert (Hkeep : latest_report (snd (process_medical_report B file w))
                  = latest_report w).
  { destruct (extract_text B (contents file) (extension_of file))
      as [r|e] eqn:He.
    - destruct (no_text r) eqn:Hn.
      + now rewrite (process_no_text B file w r He Hn).
      + destruct (summary_chain_run B (split_text B (text_of r)))
          as [summary|e] eqn:Hs.
        * destruct (detect_value B (text_of r)
                      (after_summary (split_text B (text_of r)) w)) as [v Hv].
          rewrite (process_summarized B file w r summary He Hn Hs v _ Hv)
            in Herr.
          discriminate Herr.
        * now rewrite (process_summary_raises B file w r e He Hn Hs).
    - now rewrite (process_extraction_raises B file w e He). }
  split; [exact Hkeep | now apply chat_result_store].
Qed.

Lemma chat_after_failed_upload_witness :
  let B := Demo.one_page (Raise "Rate limit reached.") (Ok "[]") in
  let stored := mkWorld (report_of "Earlier report." (PyList [])) [] in
  latest_report (snd (upload_report B Demo.pdf_upload stored))
    = latest_report stored
  /\ fst (chat_with_ai B "Is it low?" (snd (upload_report B Demo.pdf_upload stored)))
     = fst (chat_with_ai B "Is it low?" stored).
Proof.
  cbv zeta.
  apply (chat_after_failed_upload
           (Demo.one_page (Raise "Rate limit reached.") (Ok "[]"))
           Demo.pdf_upload (mkWorld (report_of "Earlier report." (PyList [])) [])
           "Is it low?" "Summarization failed: Rate limit reached.").
  reflexivity.
Defined.

(** X12.  The case of the file name does not matter: two uploads with the
    same contents whose names differ only in case are processed alike. *)
Theorem filename_case_is_ignored (B : Backend) (f1 f2 : UploadFile) (w : World) :
  lower (filename f1) = lower (filename f2) ->
  contents f1 = contents f2 ->
  process_medical_report B f1 w = process_medical_report B f2 w.
Proof.
  intros Hname Hcontents. unfold process_medical_report.
  rewrite <- !last_segment_lower, Hname, Hcontents. reflexivity.
Qed.

Lemma filename_case_is_ignored_witness :
  process_medical_report (Demo.one_page (Ok "Low hemoglobin.") (Ok "[]"))
    (mkUploadFile "Report.v2.PDF" "%PDF-1.7") Demo.fresh
  = process_medical_report (Demo.one_page (Ok "Low hemoglobin.") (Ok "[]"))
      (mkUploadFile "report.V2.pdf" "%PDF-1.7") Demo.fresh.
Proof.
  apply (filename_case_is_ignored
           (Demo.one_page (Ok "Low hemoglobin.") (Ok "[]"))
           (mkUploadFile "Report.v2.PDF" "%PDF-1.7")
           (mkUploadFile "report.V2.pdf" "%PDF-1.7") Demo.fresh);
    reflexivity.
Defined.

(** X13.  A document without visible text counts as no text: a PDF whose
    pages all yield white space only, and an image whose OCR raises or
    yields white space only, end the run with [{"error": "Unsupported file
    format or no text found."}] and the world unchanged. *)
Theorem blank_document_is_no_text (B : Backend) (file : UploadFile) (w : World) :
  (extension_of file = "pdf"
   /\ exists texts, pdf_pages B (contents file) = Ok (map Some texts)
                    /\ forallb blank texts = true)
  \/ (In (extension_of file) ["png"; "jpg"; "jpeg"]
      /\ ((exists e, image_to_string B (contents file) = Raise e)
          \/ exists text, image_to_string B (contents file) = Ok text
                          /\ blank text = true)) ->
  process_medical_report B file w
  = (Ok (PyDict [("error", PyStr "Unsupported file format or no text found.")]), w).
Proof.
  intros H.
  assert (He : exists r,
             extract_text B (contents file) (extension_of file) = Ok r
             /\ no_text r = true).
  { destruct H as [[Hext [texts [Hp Hb]]] | [Hext Hocr]].
    - exists (Some EmptyString). split; [|reflexivity].
      rewrite Hext. unfold extract_text. cbn [String.eqb Ascii.eqb Bool.eqb].
      rewrite (extract_pdf_strings B _ _ Hp).
      now rewrite (strip_blank _ (pages_text_blank _ Hb)).
    - assert (Hd : extract_text B (contents file) (extension_of file)
                   = Ok (extract_text_from_image B (contents file))).
      { destruct Hext as [<-|[<-|[<-|[]]]]; reflexivity. }
      rewrite Hd. unfold extract_text_from_image.
      destruct Hocr as [[e ->] | [text [-> Hb]]].
      + exists None. auto.
      + exists (Some EmptyString). now rewrite (strip_blank _ Hb). }
  destruct He as [r [He Hn]]. exact (process_no_text B file w r He Hn).
Qed.

Lemma blank_document_is_no_text_witness :
  process_medical_report
    (Demo.backend (Ok [Some "  "; Some EmptyString; Some (String LF " ")])
                  (Ok " ") (Ok "s") (Ok "[]"))
    Demo.pdf_upload Demo.fresh
  = (Ok (PyDict [("error", PyStr "Unsupported file format or no text found.")]),
     Demo.fresh)
  /\ process_medical_report Demo.offline (mkUploadFile "scan.PNG" "PNG") Demo.fresh
     = (Ok (PyDict [("error", PyStr "Unsupported file format or no text found.")]),
        Demo.fresh).
Proof.
  split.
  - apply (blank_document_is_no_text
             (Demo.backend (Ok [Some "  "; Some EmptyString; Some (String LF " ")])
                           (Ok " ") (Ok "s") (Ok "[]"))
             Demo.pdf_upload Demo.fresh).
    left. split; [reflexivity|].
    exists ["  "; EmptyString; String LF " "]. split; reflexivity.
  - apply (blank_document_is_no_text Demo.offline
             (mkUploadFile "scan.PNG" "PNG") Demo.fresh).
    right. split; [left; reflexivity|].
    left. exists "cannot identify image file". reflexivity.
Defined.

(** X14.  A page for which [extract_text] returns [None], wherever it
    lies, makes [extract_text_from_pdf] raise the [TypeError] of adding
    [None] and a string, and [process_medical_report] raises it too and
    leaves the world as it was. *)
Theorem page_yielding_none_raises (B : Backend) (file : UploadFile) (w : World)
    (pages : list (option string)) :
  extension_of file = "pdf" ->
  pdf_pages B (contents file) = Ok pages ->
  In None pages ->
  extract_text_from_pdf B (contents file)
    = Raise "unsupported operand type(s) for +: 'NoneType' and 'str'"
  /\ process_medical_report B file w
     = (Raise "unsupported operand type(s) for +: 'NoneType' and 'str'", w).
Proof.
  intros Hext Hp Hnone.
  assert (Hpdf : extract_text_from_pdf B (contents file)
                 = Raise "unsupported operand type(s) for +: 'NoneType' and 'str'").
  { unfold extract_text_from_pdf. rewrite Hp.
    now rewrite (add_pages_with_none pages EmptyString Hnone). }
  split; [exact Hpdf|]. apply process_extraction_raises.
  rewrite Hext. unfold extract_text. cbn [String.eqb Ascii.eqb Bool.eqb].
  now rewrite Hpdf.
Qed.

Lemma page_yielding_none_raises_witness :
  process_medical_report
    (Demo.backend (Ok [Some "Hemoglobin: 9.5 g/dL"; None])
                  (Ok "a") (Ok "s") (Ok "[]"))
    Demo.pdf_upload Demo.fresh
  = (Raise "unsupported operand type(s) for +: 'NoneType' and 'str'", Demo.fresh).
Proof.
  apply (page_yielding_none_raises
           (Demo.backend (Ok [Some "Hemoglobin: 9.5 g/dL"; None])
                         (Ok "a") (Ok "s") (Ok "[]"))
           Demo.pdf_upload Demo.fresh [Some "Hemoglobin: 9.5 g/dL"; None]).
  - reflexivity.
  - reflexivity.
  - right. left. reflexivity.
Defined.

(** X15.  The text [extract_text] hands to the pipeline is trimmed: it has
    no white space at its ends, for a PDF and for an image alike. *)
Theorem extracted_text_is_trimmed (B : Backend) (file ext text : string) :
  extract_text B file ext = Ok (Some text) -> strip text = text.
Proof.
  unfold extract_text, extract_text_from_pdf, extract_text_from_image.
  destruct (String.eqb ext "pdf").
  - destruct (pdf_pages B file) as [pages|]; [|discriminate].
    destruct (add_pages EmptyString pages); [|discriminate].
    intros [= <-]. apply strip_idempotent.
  - destruct (existsb _ _); [|discriminate].
    destruct (image_to_string B file); [|discriminate].
    intros [= <-]. apply strip_idempotent.
Qed.

Lemma extracted_text_is_trimmed_witness :
  strip "Hemoglobin: 9.5 g/dL" = "Hemoglobin: 9.5 g/dL".
Proof.
  apply (extracted_text_is_trimmed
           (Demo.backend (Ok [Some "  Hemoglobin: 9.5 g/dL "; Some "  "])
                         (Ok "a") (Ok "s") (Ok "[]"))
           "%PDF-1.7" "pdf" "Hemoglobin: 9.5 g/dL").
  reflexivity.
Defined.
